(* ===== verification/_CoqProject ===== *)
-Q . S2P
Prelude.v
Stream.v
Loops.v
Greet.v
Dispatch.v
Registry.v
Server.v
Serve.v
BookingTools.v
