(* ===== verification/Prelude.v ===== *)
(** * A verification library for the dubbo-go triple streaming sample

    The repository holds two programs.

    - [rpc/triple/stream/go-server/cmd/main.go] is a Dubbo "triple"
      server exposing the service [greet.GreetService] in the four call
      shapes of a streaming RPC: [Greet] (unary), [GreetServerStream]
      (server streaming), [GreetClientStream] (client streaming) and
      [GreetStream] (bidirectional).  Two Go structs implement it:
      [GreetTripleServer], whose handlers echo the request name, and
      [GreetTripleServerGroup1Version1], whose handlers prefix it with
      the constant [GroupVersionIdentifier = "g1v1"].  [main] builds a
      server on port 20000, registers [GreetTripleServer] through the
      generated [RegisterGreetServiceHandler] and serves.
    - [llm/book-flight/go-server/tools/bookingflight/booking_tools.go]
      holds three tools an LLM agent calls with a JSON argument:
      [SearchFlightTicket], [PurchaseFlightTicket] and
      [FinishPlaceholder], over the fixed table [flightInformation].

    The handlers talk to the triple runtime through a stream object
    ([Recv], [Send], and for client streams [Recv]/[Msg]/[Err]) and the
    runtime drives each call: it resolves the (service, group, version,
    method) tuple to a handler, feeds it the stream, and turns the
    handler's return into the call's terminal state.  The runtime, the
    generated registration code and the Go standard library are not
    under [src/]: they are modelled from the specification of the
    dispatcher core (spec.md) and marked so in the manifest.

    ** Files (in dependency order)

    - [Prelude] (this file): Go-style results ([Result], with [Ok] for a
      nil error), the [rpc_scope] notations, the Go string helpers the
      code calls ([strings.Join], [strings.Split] on a one-byte
      separator) with their round-trip lemma [Split_Join], shared
      tactics and the [rpc] hint database.
    - [Stream]: the triple stream as explicit state: the inbound queue,
      how the inbound direction ends (the end-of-stream marker [EOF] or
      a transport error), the outbound log in send order, an operation
      counter and an optional fault (a cancellation or a broken
      connection that makes every stream operation from the k-th on
      fail).  [Recv], [Send], the client-stream view ([ClientRecv],
      [ClientMsg], [ClientErr]) and the cancellation of the call's
      context ([CancelCtx]) are functions on it; FIFO order, fault
      stickiness and idempotent cancellation are lemmas.
    - [Loops]: the three loop shapes of main.go as generic Fixpoints
      ([echo_loop]: read and echo until the end marker; [collect_loop]:
      read all names; [send_n]: send n times), each with a closed-form
      specification and a lemma that enough fuel computes it.
    - [Greet]: the handlers of main.go, one Module per Go struct
      ([GreetTripleServer], [GreetTripleServerGroup1Version1]) written
      as the Go code is, each providing a [GreetServiceHandler] record
      (the generated Go interface).  Their loops are shown equal to the
      generic loops, and the theorems C2-C12 and C24 give the closed
      form of both bidirectional handlers on every stream (C2),
      termination of the read loop (C3: with enough fuel it returns),
      the exact outputs and error results of every branch, the round
      trip of the comma join, that both structs implement one handler
      parameterised by its prefix (C10), and bounds on sends and stream
      operations for every stream (C24).
    - [Dispatch]: the runtime's per-call state machine Init -> Active ->
      Completed | Failed, as a step relation, an executable [call_step]
      and its fold [run], with reachability, "terminal at most once" and
      "cancel before return fails" as lemmas, and the four call-shape
      drivers [drive]/[dispatch].
    - [Registry]: service identities (name, group, version) with
      [EqDecision] and [Countable] instances, the registry as a [gmap],
      [register] (insert-if-absent, DuplicateIdentity) and [resolve]
      (exact match, NotFound), with a well-formedness invariant.
    - [Server]: the generated registration code
      ([RegisterGreetServiceHandler] with its service options,
      [greet_methods]), [main] and [handle_call] (resolve then
      dispatch).  Its theorems C1 and C13-C19 follow each call shape
      end to end from [main] through the registry, the dispatcher and
      the handler of main.go: every call ends, which identities are
      served, echoes, joins, five replies, cancellation and hang-up.
    - [Serve]: [srv.Serve()] with many calls in flight: a list of call
      slots and a schedule of events (a call arrives, a task runs its
      call, a caller cancels, the server shuts down).  [main_serve] is
      [main] then [Serve].  Theorem C25: a call cancelled before its
      task runs can only fail with the cancellation error, for each of
      the four handlers of main.go.
    - [BookingTools]: booking_tools.go: the three tool types and their
      constructors, their [Call] methods over the table
      [flightInformation], with Go's JSON library and the sample's
      [tools] package as the classes [JSONCodec] and [ToolsPackage];
      theorems C20-C23, C26 and C27 (purchase of a listed and an
      unlisted flight, the search checks only the origin and answers
      the table exactly for Beijing, decoding errors, and the round
      trip request -> tool -> decoded answer under the law of the JSON
      library).

    The stream runtime ([Stream], [Dispatch], [Registry], the event
    loop of [Serve]) and the generated glue of [Server] are not under
    [src/]; they follow spec.md and are the environment in which the
    code of main.go is verified.

    ** Concurrency

    Calls run on their own tasks and share only the registry, which
    serving never changes ([Serve] takes the server as a constant).  A
    task runs its handler as one event of the schedule: a handler's
    stream operations touch only its own stream, so the model makes
    calls independent by construction; this is an assumption about the
    runtime (spec.md 5), not a property proved of main.go.  What can
    happen during a handler (a cancellation or a hang-up after the k-th
    stream operation) is the stream's fault.

    ** Fuel

    A Go [for] loop that reads a stream until the end marker becomes a
    [Fixpoint] with a fuel argument.  Every read consumes an inbound
    message or ends the loop, so [S (length inbox)] units of fuel are
    enough; the public handler is the loop at that fuel, and the
    theorems show that with this fuel the loop returns [Some] (C3, C13,
    C24) and that more fuel gives the same result.  The counted loop of
    [GreetServerStream] needs no fuel: it recurses on its count, 5.

    ** Not modelled

    Wire encoding, TLS, service discovery, logging ([logger.Errorf] has
    no effect on results), the server's port binding and the socket
    side of [Serve] (calls reach [Serve] already decoded), the bodies of [tools.NewBaseTool] and [tools.GetStructKeys] (package
    [tools], outside [src/] and not described by spec.md: a type-class
    parameter), and Go's [encoding/json] (also a type-class parameter
    of [BookingTools]). *)

From Stdlib Require Import List String Ascii Bool Arith Lia.
Import ListNotations.

Declare Scope rpc_scope.
Delimit Scope rpc_scope with rpc.
Local Open Scope string_scope.

(** ** Go results

    A Go function returning [(T, error)] is modelled as [Result E T]:
    [Ok v] when the error is nil, [Error e] otherwise.  A function
    returning only [error] returns [option E] ([None] is nil). *)

Inductive Result (E A : Type) : Type :=
| Ok (v : A)
| Error (e : E).
Arguments Ok {E A} v.
Arguments Error {E A} e.

Definition Result_bind {E A B} (r : Result E A) (k : A -> Result E B) : Result E B :=
  match r with
  | Ok v => k v
  | Error e => Error e
  end.

Module ResultNotations.
Notation "'let*' x ':=' c 'in' k" := (Result_bind c (fun x => k))
  (at level 100, x name, c at next level, right associativity) : rpc_scope.
End ResultNotations.

Definition is_ok {E A} (r : Result E A) : bool :=
  match r with Ok _ => true | Error _ => false end.

(** ** Go's [strings.Join] and [strings.Split] *)

(** [strings.Join(elems, sep)]: the elements separated by [sep]. *)
Fixpoint Join (elems : list string) (sep : string) : string :=
  match elems with
  | [] => ""
  | [x] => x
  | x :: xs => x ++ sep ++ Join xs sep
  end.

(** [strings.Split(s, sep)] for a one-byte separator: the pieces
    between separators, one more than the number of separators. *)
Fixpoint Split (s : string) (sep : ascii) : list string :=
  match s with
  | EmptyString => [""]
  | String c rest =>
      let parts := Split rest sep in
      if Ascii.eqb c sep then "" :: parts
      else match parts with
           | p :: ps => String c p :: ps
           | [] => [String c ""]
           end
  end.

(** [strings.ContainsRune(s, c)] for a byte. *)
Fixpoint has_byte (c : ascii) (s : string) : bool :=
  match s with
  | EmptyString => false
  | String d rest => Ascii.eqb d c || has_byte c rest
  end.

(** ** Tactics and hints *)

Ltac inv H := inversion H; subst; clear H.

(** Destructs every [let (a, b) := e in _] and [match e with Ok _ | Error _]
    blocking the goal, keeping an equation for each. *)
Ltac case_results :=
  repeat match goal with
         | |- context [match ?e with Ok _ => _ | Error _ => _ end] =>
             let E := fresh "E" in destruct e eqn:E
         | |- context [match ?e with Some _ => _ | None => _ end] =>
             let E := fresh "E" in destruct e eqn:E
         end.

Create HintDb rpc discriminated.
Create Rewrite HintDb rpc.

(** ** Generic lemmas *)

Lemma string_app_assoc (a b c : string) : (a ++ b) ++ c = a ++ (b ++ c).
Proof. induction a as [|ch a IH]; simpl; [reflexivity | now rewrite IH]. Qed.

Lemma string_app_nil_r (a : string) : a ++ "" = a.
Proof. induction a as [|ch a IH]; simpl; [reflexivity | now rewrite IH]. Qed.

Lemma string_length_app (a b : string) : String.length (a ++ b) = String.length a + String.length b.
Proof. induction a as [|ch a IH]; simpl; [reflexivity | now rewrite IH]. Qed.

#[export] Hint Rewrite string_app_assoc string_app_nil_r : rpc.

Lemma Join_cons_cons x y ys sep :
  Join (x :: y :: ys) sep = x ++ sep ++ Join (y :: ys) sep.
Proof. reflexivity. Qed.

Lemma Join_app_last xs x sep :
  xs <> [] -> Join (xs ++ [x])%list sep = Join xs sep ++ sep ++ x.
Proof.
  induction xs as [|a [|b l] IH]; intros H; [congruence| reflexivity |].
  change ((a :: b :: l) ++ [x])%list with (a :: ((b :: l) ++ [x]))%list.
  destruct ((b :: l) ++ [x])%list as [|c r] eqn:E; [discriminate|].
  rewrite Join_cons_cons, IH by discriminate.
  rewrite Join_cons_cons. now autorewrite with rpc.
Qed.

Lemma Split_no_sep s sep : has_byte sep s = false -> Split s sep = [s].
Proof.
  induction s as [|c s IH]; simpl; [reflexivity|].
  intros H. apply orb_false_iff in H as [Hc Hs].
  rewrite Hc, IH by exact Hs. reflexivity.
Qed.

Lemma Split_app_sep x rest sep :
  has_byte sep x = false ->
  Split (x ++ String sep rest) sep = x :: Split rest sep.
Proof.
  induction x as [|c x IH]; simpl; intros H.
  - rewrite Ascii.eqb_refl. reflexivity.
  - apply orb_false_iff in H as [Hc Hx].
    rewrite Hc, IH by exact Hx. reflexivity.
Qed.

#[export] Hint Rewrite Split_app_sep Split_no_sep using assumption : rpc.

(** Splitting the join of separator-free pieces gives the pieces back. *)
Lemma Split_Join xs sep :
  xs <> [] -> Forall (fun x => has_byte sep x = false) xs ->
  Split (Join xs (String sep "")) sep = xs.
Proof.
  induction xs as [|x [|y ys] IH]; intros Hne Hall; [congruence| |].
  - inv Hall. simpl. now apply Split_no_sep.
  - inv Hall. rewrite Join_cons_cons.
    change (String sep "" ++ ?j) with (String sep j).
    rewrite Split_app_sep by assumption. now rewrite IH.
Qed.
