(* ===== verification/Stream.v ===== *)
(** * The triple stream seen by a handler

    The triple runtime hands each streaming handler a stream object:
    [Recv] returns the next inbound message or an error ([io.EOF] once
    the peer has closed its side), [Send] appends an outbound message
    or fails.  The client-streaming view wraps it as
    [Recv() bool] / [Msg()] / [Err()].

    The stream is explicit state ([Stream]): the inbound messages not
    yet read, the error [Recv] returns once they are drained ([EOF] for
    a clean half-close, a transport error for a hang-up), the outbound
    log in send order, a count of the operations performed so far and
    an optional fault [(k, e)]: from the k-th operation on, every
    operation fails with [e].  A fault models both a cancelled context
    and a broken connection: both make every later [Recv] and [Send]
    return an error at once (spec.md 5, "must unblock promptly").  The
    runtime is outside [src/], so this file follows spec.md 3 and 6. *)

From Stdlib Require Import String Bool Arith Lia List.
From S2P Require Import Prelude.
Import ListNotations.
Local Open Scope nat_scope.
Local Open Scope list_scope.

(** ** Errors *)

(** The errors a stream operation returns to a handler. *)
Inductive Err : Type :=
| EOF                      (** [io.EOF]: the peer closed its sending side *)
| Canceled                 (** the call's context was cancelled or timed out *)
| Transport (code : nat)   (** any other connection error (reset, unavailable) *)
| Handler (msg : string).  (** an error a handler returns on its own *)

Definition Err_eq_dec (a b : Err) : {a = b} + {a <> b}.
Proof. decide equality; [apply Nat.eq_dec | apply string_dec]. Defined.

(** [triple.IsEnded(err)]: the error is the cooperative end-of-stream
    marker. *)
Definition IsEnded (e : Err) : bool :=
  match e with EOF => true | _ => false end.

(** What can break a call in the middle: its context is cancelled, or
    the connection fails.  Neither is the end-of-stream marker. *)
Inductive Fault : Type :=
| FCanceled
| FTransport (code : nat).

Definition fault_err (f : Fault) : Err :=
  match f with FCanceled => Canceled | FTransport c => Transport c end.

Lemma IsEnded_fault_err f : IsEnded (fault_err f) = false.
Proof. now destruct f. Qed.

#[export] Hint Rewrite IsEnded_fault_err : rpc.

(** The zero value of a Go type, which [new(T)] returns. *)
Class GoZero (A : Type) := go_zero : A.

(** ** Stream state *)

Record Stream (In Out : Type) : Type := mkStream {
  inbox : list In;
  inbox_end : Err;
  outbox : list Out;
  ops : nat;
  fault : option (nat * Fault)
}.
Arguments mkStream {In Out} inbox inbox_end outbox ops fault.
Arguments inbox {In Out} s.
Arguments inbox_end {In Out} s.
Arguments outbox {In Out} s.
Arguments ops {In Out} s.
Arguments fault {In Out} s.

Section Ops.
Context {In Out : Type}.
Implicit Types (s : Stream In Out).

(** The error every operation returns now, if the fault has struck. *)
Definition failing s : option Err :=
  match fault s with
  | Some (k, f) => if k <=? ops s then Some (fault_err f) else None
  | None => None
  end.

(** How many more operations succeed before the fault strikes. *)
Definition budget s : option nat :=
  match fault s with
  | Some (k, _) => Some (k - ops s)
  | None => None
  end.

Definition tick s : Stream In Out :=
  mkStream (inbox s) (inbox_end s) (outbox s) (S (ops s)) (fault s).

(** [stream.Recv()]. *)
Definition Recv s : Stream In Out * Result Err In :=
  match failing s with
  | Some e => (tick s, Error e)
  | None =>
      match inbox s with
      | m :: rest =>
          (mkStream rest (inbox_end s) (outbox s) (S (ops s)) (fault s), Ok m)
      | [] => (tick s, Error (inbox_end s))
      end
  end.

(** [stream.Send(m)]. *)
Definition Send (m : Out) s : Stream In Out * option Err :=
  match failing s with
  | Some e => (tick s, Some e)
  | None =>
      (mkStream (inbox s) (inbox_end s) (outbox s ++ [m]) (S (ops s)) (fault s), None)
  end.

(** ** Basic laws *)

Lemma failing_budget s :
  failing s = match fault s with
              | Some (k, f) => if k - ops s =? 0 then Some (fault_err f) else None
              | None => None end.
Proof.
  unfold failing. destruct (fault s) as [[k e]|]; [|reflexivity].
  destruct (Nat.leb_spec k (ops s)), (Nat.eqb_spec (k - ops s) 0); auto; lia.
Qed.

Lemma Recv_ops s : ops (fst (Recv s)) = S (ops s).
Proof. unfold Recv; destruct (failing s), (inbox s); reflexivity. Qed.

Lemma Send_ops m s : ops (fst (Send m s)) = S (ops s).
Proof. unfold Send; destruct (failing s); reflexivity. Qed.

Lemma Recv_fault s : fault (fst (Recv s)) = fault s.
Proof. unfold Recv; destruct (failing s), (inbox s); reflexivity. Qed.

Lemma Send_fault m s : fault (fst (Send m s)) = fault s.
Proof. unfold Send; destruct (failing s); reflexivity. Qed.

Lemma Recv_outbox s : outbox (fst (Recv s)) = outbox s.
Proof. unfold Recv; destruct (failing s), (inbox s); reflexivity. Qed.

(** Once the fault has struck it stays: cancellation is sticky. *)
Lemma failing_tick s e : failing s = Some e -> failing (tick s) = Some e.
Proof.
  unfold failing, tick; simpl. destruct (fault s) as [[k e']|]; [|discriminate].
  destruct (Nat.leb_spec k (ops s)), (Nat.leb_spec k (S (ops s))); congruence || lia.
Qed.

Lemma failing_Recv s e : failing s = Some e -> failing (fst (Recv s)) = Some e.
Proof. intros H. unfold Recv. rewrite H. now apply failing_tick. Qed.

Lemma failing_Send m s e : failing s = Some e -> failing (fst (Send m s)) = Some e.
Proof. intros H. unfold Send. rewrite H. now apply failing_tick. Qed.

(** FIFO: a successful [Recv] returns the oldest inbound message, a
    successful [Send] appends to the end of the outbound log. *)
Lemma Recv_head s m rest :
  failing s = None -> inbox s = m :: rest ->
  Recv s = (mkStream rest (inbox_end s) (outbox s) (S (ops s)) (fault s), Ok m).
Proof. intros Hf Hi. unfold Recv. now rewrite Hf, Hi. Qed.

Lemma Recv_drained s :
  failing s = None -> inbox s = [] -> Recv s = (tick s, Error (inbox_end s)).
Proof. intros Hf Hi. unfold Recv. now rewrite Hf, Hi. Qed.

Lemma Recv_failing s e : failing s = Some e -> Recv s = (tick s, Error e).
Proof. intros Hf. unfold Recv. now rewrite Hf. Qed.

Lemma Send_append m s :
  failing s = None ->
  Send m s = (mkStream (inbox s) (inbox_end s) (outbox s ++ [m]) (S (ops s)) (fault s), None).
Proof. intros Hf. unfold Send. now rewrite Hf. Qed.

Lemma Send_failing m s e : failing s = Some e -> Send m s = (tick s, Some e).
Proof. intros Hf. unfold Send. now rewrite Hf. Qed.

Lemma failing_inv s e :
  failing s = Some e -> exists k f, fault s = Some (k, f) /\ k <= ops s /\ e = fault_err f.
Proof.
  unfold failing. destruct (fault s) as [[k f]|]; [|discriminate].
  destruct (Nat.leb_spec k (ops s)) as [Hk|Hk]; intros Heq; inv Heq; eauto.
Qed.

(** A fault is never taken for the end-of-stream marker. *)
Lemma failing_not_ended s e : failing s = Some e -> IsEnded e = false.
Proof. intros (k & f & _ & _ & ->)%failing_inv. apply IsEnded_fault_err. Qed.

(** ** Cancelling the call's context

    [cancel()] on the call's context: from the next operation on, every
    [Recv] and [Send] fails with [Canceled], unless a fault has already
    struck (then the stream keeps failing with that error). *)
Definition CancelCtx s : Stream In Out :=
  match failing s with
  | Some _ => s
  | None => mkStream (inbox s) (inbox_end s) (outbox s) (ops s) (Some (ops s, FCanceled))
  end.

Lemma failing_CancelCtx s : failing s = None -> failing (CancelCtx s) = Some Canceled.
Proof. unfold CancelCtx. intros ->. unfold failing; cbn. now rewrite Nat.leb_refl. Qed.

Lemma failing_CancelCtx_struck s e : failing s = Some e -> CancelCtx s = s.
Proof. unfold CancelCtx. now intros ->. Qed.

(** Cancelling twice is cancelling once. *)
Lemma CancelCtx_idem s : CancelCtx (CancelCtx s) = CancelCtx s.
Proof.
  destruct (failing s) as [e|] eqn:Hf.
  - now rewrite !(failing_CancelCtx_struck s e Hf).
  - exact (failing_CancelCtx_struck _ _ (failing_CancelCtx s Hf)).
Qed.

End Ops.

(** ** The client-streaming view *)

(** [GreetService_GreetClientStreamServer]: the stream, the last
    message read and the sticky error. *)
Record ClientStream (In Out : Type) : Type := mkClientStream {
  cs_conn : Stream In Out;
  cs_msg : In;
  cs_err : option Err
}.
Arguments mkClientStream {In Out} cs_conn cs_msg cs_err.
Arguments cs_conn {In Out} c.
Arguments cs_msg {In Out} c.
Arguments cs_err {In Out} c.

Section ClientOps.
Context {In Out : Type}.
Implicit Types (c : ClientStream In Out).

(** The view the runtime builds before calling the handler. *)
Definition NewClientStream `{GoZero In} (s : Stream In Out) : ClientStream In Out :=
  mkClientStream s go_zero None.

(** [stream.Recv()]: false once an error (end marker included) has been
    seen, and from then on. *)
Definition ClientRecv c : ClientStream In Out * bool :=
  match cs_err c with
  | Some _ => (c, false)
  | None =>
      let '(s, r) := Recv (cs_conn c) in
      match r with
      | Ok m => (mkClientStream s m None, true)
      | Error e => (mkClientStream s (cs_msg c) (Some e), false)
      end
  end.

(** [stream.Msg()]. *)
Definition ClientMsg c : In := cs_msg c.

(** [stream.Err()]: the error that stopped [Recv], end marker included.
    A runtime whose [Err()] reports nil after a clean end (the end
    marker filtered out) gives the same result to every caller that,
    like main.go line 66, tests [Err() != nil && !IsEnded(Err())]: both
    readings make that test false exactly when the stream ended with
    the marker. *)
Definition ClientErr c : option Err := cs_err c.

End ClientOps.
