(* ===== verification/Loops.v ===== *)
(** * The three stream loops of the handlers, and what they compute

    Every streaming handler of main.go is one of three loops over the
    stream of [Stream]:
    - [echo_loop g]: [for { req, err := Recv(); if err != nil { if
      IsEnded(err) { break }; return err }; if err := Send(g req); err
      != nil { return err } }; return nil] (the bidirectional handlers);
    - [collect_loop h]: [for stream.Recv() { reqs = append(reqs,
      h(stream.Msg())) }] (the client-streaming handlers);
    - [send_n n m]: [for i := 0; i < n; i++ { if err := Send(m); err !=
      nil { return err } }; return nil] (the server-streaming handlers).

    Each loop is given a closed-form specification ([echo_spec],
    [collect_spec], [send_n_spec]) that says in one step what the loop
    does to the stream: which messages it consumes, which it sends, how
    many stream operations it performs and which error it returns,
    according to how many operations succeed before the fault (the
    stream's [budget]).  The refinement lemmas [echo_loop_spec],
    [collect_loop_spec] and [send_n_spec_eq] prove that the loops,
    given [S (length inbox)] fuel or more, compute exactly the
    specification; in particular they always finish. *)

From Stdlib Require Import String Bool Arith Lia List.
From S2P Require Import Prelude Stream.
Import ListNotations.
Local Open Scope nat_scope.
Local Open Scope list_scope.

(** ** Bidirectional: receive, transform, send back *)

Section Echo.
Context {In Out : Type} (g : In -> Out).
Implicit Types (s : Stream In Out).

Fixpoint echo_loop (fuel : nat) s : option (Stream In Out * option Err) :=
  match fuel with
  | O => None
  | S fuel =>
      let '(s, r) := Recv s in
      match r with
      | Error err => if IsEnded err then Some (s, None) else Some (s, Some err)
      | Ok req =>
          let '(s, serr) := Send (g req) s in
          match serr with
          | Some err => Some (s, Some err)
          | None => echo_loop fuel s
          end
      end
  end.

(** The loop reads every message, echoes it, and reads the end marker:
    [2 n + 1] operations. *)
Definition echo_done s : Stream In Out * option Err :=
  (mkStream [] (inbox_end s) (outbox s ++ map g (inbox s))
            (ops s + 2 * length (inbox s) + 1) (fault s),
   if IsEnded (inbox_end s) then None else Some (inbox_end s)).

(** With a budget of [b <= 2 n] operations the [b]-th one fails: an
    even [b] is a [Recv], an odd one a [Send]; [div2 b] messages have
    been echoed and [div2 (S b)] read. *)
Definition echo_spec s : Stream In Out * option Err :=
  match fault s with
  | Some (k, f) =>
      let b := k - ops s in
      if b <=? 2 * length (inbox s) then
        (mkStream (skipn (Nat.div2 (S b)) (inbox s)) (inbox_end s)
                  (outbox s ++ map g (firstn (Nat.div2 b) (inbox s)))
                  (ops s + b + 1) (fault s), Some (fault_err f))
      else echo_done s
  | None => echo_done s
  end.

Lemma echo_spec_step s m rest :
  failing s = None -> inbox s = m :: rest ->
  failing (mkStream rest (inbox_end s) (outbox s) (S (ops s)) (fault s)) = None ->
  echo_spec (mkStream rest (inbox_end s) (outbox s ++ [g m]) (S (S (ops s))) (fault s))
  = echo_spec s.
Proof.
  unfold echo_spec, echo_done, failing; cbn [inbox inbox_end outbox ops fault].
  intros H1 Hi H2. rewrite Hi. cbn [length map].
  destruct (fault s) as [[k e]|].
  2: { rewrite <- app_assoc. do 2 f_equal. lia. }
  destruct (Nat.leb_spec k (ops s)); [discriminate|].
  destruct (Nat.leb_spec k (S (ops s))); [discriminate|].
  replace (k - ops s) with (S (S (k - S (S (ops s))))) by lia.
  set (b := k - S (S (ops s))).
  replace (S (S b) <=? 2 * S (length rest)) with (b <=? 2 * length rest)
    by (apply Bool.eq_iff_eq_true; rewrite !Nat.leb_le; lia).
  destruct (b <=? 2 * length rest); cbn [Nat.div2 firstn skipn map];
    rewrite <- app_assoc; do 2 f_equal; lia.
Qed.

(** Refinement: the loop computes its specification as soon as it has
    more fuel than there are inbound messages. *)
Lemma echo_loop_spec fuel s :
  length (inbox s) < fuel -> echo_loop fuel s = Some (echo_spec s).
Proof.
  revert s; induction fuel as [|fuel IH]; intros s Hfuel; [lia|].
  simpl. destruct (failing s) as [e|] eqn:Hf.
  - rewrite (Recv_failing s e Hf). unfold echo_spec, failing in *.
  (* the fault has struck: budget 0 *)
    destruct (fault s) as [[k e']|] eqn:Hfs; [|discriminate].
    destruct (Nat.leb_spec k (ops s)); [|discriminate]. inv Hf.
    replace (k - ops s) with 0 by lia. simpl.
    rewrite app_nil_r, IsEnded_fault_err. unfold tick. repeat f_equal; auto; lia.
  - destruct (inbox s) as [|m rest] eqn:Hi.
    + rewrite (Recv_drained s Hf Hi). unfold echo_spec, echo_done.
      rewrite Hi; simpl. rewrite app_nil_r.
      unfold failing in Hf.
      destruct (fault s) as [[k e]|] eqn:Hfs; unfold tick; rewrite ?Hfs.
      * destruct (Nat.leb_spec k (ops s)); [discriminate|].
        destruct (Nat.leb_spec (k - ops s) 0); [lia|].
        destruct (IsEnded (inbox_end s)); repeat f_equal; auto; lia.
      * destruct (IsEnded (inbox_end s)); repeat f_equal; auto; lia.
    + rewrite (Recv_head s m rest Hf Hi).
      set (s1 := mkStream rest (inbox_end s) (outbox s) (S (ops s)) (fault s)).
      destruct (failing s1) as [e|] eqn:Hf1.
      * rewrite (Send_failing (g m) s1 e Hf1).
        (* budget 1: the echo of the first message fails *)
        unfold echo_spec, failing in *; simpl in Hf1.
        destruct (fault s) as [[k e']|] eqn:Hfs; [|discriminate].
        destruct (Nat.leb_spec k (ops s)); [discriminate|].
        destruct (Nat.leb_spec k (S (ops s))); [|discriminate]. inv Hf1.
        replace (k - ops s) with 1 by lia. rewrite Hi. simpl.
        rewrite app_nil_r. unfold tick, s1; simpl. repeat f_equal; auto; lia.
      * rewrite (Send_append (g m) s1 Hf1). simpl.
        rewrite IH by (cbn; simpl in Hfuel; lia).
        f_equal. now apply echo_spec_step.
Qed.

(** On a stream whose fault has already struck, the loop returns that
    error at its first read. *)
Lemma echo_spec_failing s e : failing s = Some e -> snd (echo_spec s) = Some e.
Proof.
  intros (k & f & Hfs & Hk & ->)%failing_inv. unfold echo_spec. rewrite Hfs.
  replace (k - ops s) with 0 by lia. reflexivity.
Qed.

(** Bounds: the loop only appends to the outbound log, at most one
    echo per inbound message, in at most [2 n + 1] operations. *)
Lemma echo_spec_bounds s :
  (exists sent, outbox (fst (echo_spec s)) = outbox s ++ sent /\ length sent <= length (inbox s)) /\
  ops (fst (echo_spec s)) <= ops s + 2 * length (inbox s) + 1.
Proof.
  unfold echo_spec, echo_done.
  destruct (fault s) as [[k f]|]; [destruct (Nat.leb_spec (k - ops s) (2 * length (inbox s)))|];
    cbn [fst outbox ops]; (split; [eexists; split; [reflexivity|]|]);
    rewrite ?length_map, ?length_firstn; lia.
Qed.

End Echo.

(** ** Client streaming: read until [Recv] says false *)

Lemma last_cons_default {A} (m d : A) l : last (m :: l) d = last l m.
Proof.
  revert m d; induction l as [|a l IH]; intros m d; [reflexivity|].
  change (last (m :: a :: l) d) with (last (a :: l) d).
  rewrite !IH. reflexivity.
Qed.

Section Collect.
Context {In Out : Type} (h : In -> string).
Implicit Types (c : ClientStream In Out).

Fixpoint collect_loop (fuel : nat) (reqs : list string) c
  : option (ClientStream In Out * list string) :=
  match fuel with
  | O => None
  | S fuel =>
      let '(c, more) := ClientRecv c in
      if more then collect_loop fuel (reqs ++ [h (ClientMsg c)]) c
      else Some (c, reqs)
  end.

(** The view after the first [b] inbound messages were read and the
    next [Recv] stopped with [e]. *)
Definition collect_after c (b : nat) (e : Err) : ClientStream In Out :=
  let s := cs_conn c in
  mkClientStream
    (mkStream (skipn b (inbox s)) (inbox_end s) (outbox s) (ops s + b + 1) (fault s))
    (last (firstn b (inbox s)) (cs_msg c)) (Some e).

(** A fresh view reads every message, then the end marker; with a
    budget of [b <= n] operations it reads [b] messages and stops on
    the fault.  A view that already saw an error reads nothing. *)
Definition collect_spec (reqs : list string) c : ClientStream In Out * list string :=
  let s := cs_conn c in
  let n := length (inbox s) in
  match cs_err c with
  | Some _ => (c, reqs)
  | None =>
      match fault s with
      | Some (k, f) =>
          if k - ops s <=? n
          then (collect_after c (k - ops s) (fault_err f),
                reqs ++ map h (firstn (k - ops s) (inbox s)))
          else (collect_after c n (inbox_end s), reqs ++ map h (inbox s))
      | None => (collect_after c n (inbox_end s), reqs ++ map h (inbox s))
      end
  end.

Lemma collect_spec_step c m rest reqs :
  cs_err c = None -> failing (cs_conn c) = None -> inbox (cs_conn c) = m :: rest ->
  collect_spec (reqs ++ [h m])
    (mkClientStream (mkStream rest (inbox_end (cs_conn c)) (outbox (cs_conn c))
                       (S (ops (cs_conn c))) (fault (cs_conn c))) m None)
  = collect_spec reqs c.
Proof.
  destruct c as [s msg err]; cbn [cs_err cs_conn cs_msg]. intros -> Hf Hi.
  unfold collect_spec, collect_after, failing in *; cbn [cs_conn cs_msg cs_err inbox inbox_end outbox ops fault] in *.
  rewrite Hi. cbn [length map firstn skipn].
  destruct (fault s) as [[k f]|].
  2: { rewrite <- app_assoc, last_cons_default. do 3 f_equal. lia. }
  destruct (Nat.leb_spec k (ops s)); [discriminate|].
  replace (k - ops s) with (S (k - S (ops s))) by lia.
  set (b := k - S (ops s)).
  replace (S b <=? S (length rest)) with (b <=? length rest)
    by (apply Bool.eq_iff_eq_true; rewrite !Nat.leb_le; lia).
  destruct (b <=? length rest); cbn [firstn skipn map];
    rewrite <- app_assoc, last_cons_default; do 3 f_equal; lia.
Qed.

Lemma collect_loop_spec fuel reqs c :
  length (inbox (cs_conn c)) < fuel -> collect_loop fuel reqs c = Some (collect_spec reqs c).
Proof.
  revert reqs c; induction fuel as [|fuel IH]; intros reqs c Hfuel; [lia|].
  simpl. unfold ClientRecv.
  destruct (cs_err c) as [e0|] eqn:He; [unfold collect_spec; now rewrite He|].
  destruct (failing (cs_conn c)) as [e|] eqn:Hf.
  - rewrite (Recv_failing _ e Hf).
    unfold collect_spec, collect_after, failing in *; rewrite He.
    destruct c as [s msg err]; cbn [cs_conn cs_msg] in *.
    destruct (fault s) as [[k f]|] eqn:Hfs; [|discriminate].
    destruct (Nat.leb_spec k (ops s)); [|discriminate]. inv Hf.
    replace (k - ops s) with 0 by lia. simpl. unfold tick. rewrite Hfs, app_nil_r.
    repeat f_equal; auto; lia.
  - destruct (inbox (cs_conn c)) as [|m rest] eqn:Hi.
    + rewrite (Recv_drained _ Hf Hi).
      unfold collect_spec, collect_after, failing in *; rewrite He, Hi.
      destruct c as [s msg err]; cbn [cs_conn cs_msg] in *. rewrite ?Hi. simpl.
      rewrite app_nil_r. unfold tick.
      destruct (fault s) as [[k f]|] eqn:Hfs.
      * destruct (Nat.leb_spec k (ops s)); [discriminate|].
        destruct (Nat.leb_spec (k - ops s) 0); [lia|].
        repeat f_equal; auto; lia.
      * repeat f_equal; auto; lia.
    + rewrite (Recv_head _ m rest Hf Hi). unfold ClientMsg; cbn [cs_msg].
      rewrite IH by (cbn; simpl in Hfuel; lia).
      f_equal. now apply collect_spec_step.
Qed.

(** A fresh view on a stream whose fault has already struck stops at
    its first read with that error. *)
Lemma collect_spec_failing reqs c e :
  cs_err c = None -> failing (cs_conn c) = Some e -> cs_err (fst (collect_spec reqs c)) = Some e.
Proof.
  intros He (k & f & Hfs & Hk & ->)%failing_inv. unfold collect_spec. rewrite He, Hfs.
  replace (k - ops (cs_conn c)) with 0 by lia. reflexivity.
Qed.

End Collect.

(** ** Server streaming: a bounded run of sends *)

Section SendN.
Context {In Out : Type}.
Implicit Types (s : Stream In Out).

Fixpoint send_n (n : nat) (m : Out) s : Stream In Out * option Err :=
  match n with
  | O => (s, None)
  | S n =>
      let '(s, err) := Send m s in
      match err with
      | Some err => (s, Some err)
      | None => send_n n m s
      end
  end.

(** All [n] sends succeed, or the [b]-th fails after [b] copies. *)
Definition send_n_spec (n : nat) (m : Out) s : Stream In Out * option Err :=
  let done := (mkStream (inbox s) (inbox_end s) (outbox s ++ repeat m n) (ops s + n) (fault s), None) in
  match fault s with
  | Some (k, f) =>
      if k - ops s <? n
      then (mkStream (inbox s) (inbox_end s) (outbox s ++ repeat m (k - ops s))
                     (ops s + (k - ops s) + 1) (fault s), Some (fault_err f))
      else done
  | None => done
  end.

Lemma send_n_spec_eq n m s : send_n n m s = send_n_spec n m s.
Proof.
  revert s; induction n as [|n IH]; intros s; simpl.
  - unfold send_n_spec. destruct s as [i e o p fl]; cbn.
    rewrite app_nil_r, Nat.add_0_r.
    destruct fl as [[k f]|]; reflexivity.
  - destruct (failing s) as [e|] eqn:Hf.
    + rewrite (Send_failing m s e Hf). unfold send_n_spec, failing, tick in *.
      destruct (fault s) as [[k f]|] eqn:Hfs; [|discriminate].
      destruct (Nat.leb_spec k (ops s)); [|discriminate]. inv Hf.
      replace (k - ops s) with 0 by lia. simpl. rewrite app_nil_r.
      do 2 f_equal; lia.
    + rewrite (Send_append m s Hf), IH. unfold send_n_spec, failing in *; cbn [inbox inbox_end outbox ops fault].
      rewrite <- app_assoc.
      destruct (fault s) as [[k f]|].
      2: { do 2 f_equal. lia. }
      destruct (Nat.leb_spec k (ops s)); [discriminate|].
      replace (k - ops s) with (S (k - S (ops s))) by lia.
      set (b := k - S (ops s)).
      replace (S b <? S n) with (b <? n)
        by (apply Bool.eq_iff_eq_true; rewrite !Nat.ltb_lt; lia).
      destruct (b <? n); cbn [repeat app]; rewrite <- ?app_assoc; do 2 f_equal; lia.
Qed.

End SendN.
