(* ===== verification/Greet.v ===== *)
(** * The handlers of rpc/triple/stream/go-server/cmd/main.go

    The generated package [greet] declares one request and one response
    message per method, each with a single string field, and the
    interface [GreetServiceHandler] with the four methods.  The Go file
    implements it twice:
    - [GreetTripleServer] (lines 36-85) echoes the request name;
    - [GreetTripleServerGroup1Version1] (lines 87-140) prefixes it with
      [GroupVersionIdentifier = "g1v1"].

    Each Go struct is a Module whose definitions follow the method
    bodies line by line; a loop is a Fixpoint (with fuel for the loops
    that read until the end marker, structural on the remaining count
    for the [for i := 0; i < 5; i++] loop).  [handler] packs the four
    methods as a [GreetServiceHandler] record, the interface the
    registration code consumes.  The lemmas [*_is_*_loop] show that
    each loop is an instance of a generic loop of [Loops], which is
    where its behaviour is proved once. *)

From Stdlib Require Import String Ascii Bool Arith Lia List.
From Stdlib Require Import Morphisms RelationClasses.
From S2P Require Import Prelude Stream Loops.
Import ListNotations.
Local Open Scope string_scope.
Local Open Scope nat_scope.
Local Open Scope list_scope.

(** ** Messages of greet.proto *)

Module GreetRequest.
Record t := mk { Name : string }.
End GreetRequest.

Module GreetResponse.
Record t := mk { Greeting : string }.
End GreetResponse.

Module GreetStreamRequest.
Record t := mk { Name : string }.
End GreetStreamRequest.

Module GreetStreamResponse.
Record t := mk { Greeting : string }.
End GreetStreamResponse.

Module GreetClientStreamRequest.
Record t := mk { Name : string }.
End GreetClientStreamRequest.

Module GreetClientStreamResponse.
Record t := mk { Greeting : string }.
End GreetClientStreamResponse.

Module GreetServerStreamRequest.
Record t := mk { Name : string }.
End GreetServerStreamRequest.

Module GreetServerStreamResponse.
Record t := mk { Greeting : string }.
End GreetServerStreamResponse.


#[export] Instance GreetClientStreamRequest_zero : GoZero GreetClientStreamRequest.t :=
  GreetClientStreamRequest.mk "".

(** The stream types the generated code hands to the handlers. *)
Abbreviation GreetStreamServer := (Stream GreetStreamRequest.t GreetStreamResponse.t).
Abbreviation GreetClientStreamServer :=
  (ClientStream GreetClientStreamRequest.t GreetClientStreamResponse.t).
Abbreviation GreetServerStreamServer :=
  (Stream GreetServerStreamRequest.t GreetServerStreamResponse.t).

(** ** The interface [greet.GreetServiceHandler]

    A streaming method returns [None] only if its loop runs out of fuel,
    which the termination theorems exclude for both implementations. *)
Record GreetServiceHandler : Type := {
  svc_Greet : GreetRequest.t -> Result Err GreetResponse.t;
  svc_GreetStream : GreetStreamServer -> option (GreetStreamServer * option Err);
  svc_GreetClientStream : GreetClientStreamServer ->
    option (GreetClientStreamServer * Result Err GreetClientStreamResponse.t);
  svc_GreetServerStream : GreetServerStreamRequest.t -> GreetServerStreamServer ->
    GreetServerStreamServer * option Err
}.

(** ** [GreetTripleServer] *)

Module GreetTripleServer.

Definition Greet (req : GreetRequest.t) : Result Err GreetResponse.t :=
  let resp := GreetResponse.mk (GreetRequest.Name req) in
  Ok resp.

Fixpoint GreetStream_loop (fuel : nat) (stream : GreetStreamServer)
  : option (GreetStreamServer * option Err) :=
  match fuel with
  | O => None
  | S fuel =>
      let '(stream, r) := Recv stream in
      match r with
      | Error err =>
          if IsEnded err then Some (stream, None)   (* break; return nil *)
          else Some (stream, Some err)             (* return err *)
      | Ok req =>
          let '(stream, err) :=
            Send (GreetStreamResponse.mk (GreetStreamRequest.Name req)) stream in
          match err with
          | Some err => Some (stream, Some err)
          | None => GreetStream_loop fuel stream
          end
      end
  end.

Definition GreetStream (stream : GreetStreamServer) :=
  GreetStream_loop (S (length (inbox stream))) stream.

Fixpoint GreetClientStream_loop (fuel : nat) (reqs : list string)
    (stream : GreetClientStreamServer) : option (GreetClientStreamServer * list string) :=
  match fuel with
  | O => None
  | S fuel =>
      let '(stream, more) := ClientRecv stream in
      if more
      then GreetClientStream_loop fuel
             (reqs ++ [GreetClientStreamRequest.Name (ClientMsg stream)]) stream
      else Some (stream, reqs)
  end.

Definition GreetClientStream (stream : GreetClientStreamServer)
  : option (GreetClientStreamServer * Result Err GreetClientStreamResponse.t) :=
  match GreetClientStream_loop (S (length (inbox (cs_conn stream)))) [] stream with
  | None => None
  | Some (stream, reqs) =>
      let resp := GreetClientStreamResponse.mk (Join reqs ",") in
      match ClientErr stream with
      | Some err => if negb (IsEnded err) then Some (stream, Error err)
                    else Some (stream, Ok resp)
      | None => Some (stream, Ok resp)
      end
  end.

(** [for i := 0; i < 5; i++]: [n] is the number of iterations left. *)
Fixpoint GreetServerStream_loop (n : nat) (req : GreetServerStreamRequest.t)
    (stream : GreetServerStreamServer) : GreetServerStreamServer * option Err :=
  match n with
  | O => (stream, None)
  | S n =>
      let '(stream, err) :=
        Send (GreetServerStreamResponse.mk (GreetServerStreamRequest.Name req)) stream in
      match err with
      | Some err => (stream, Some err)
      | None => GreetServerStream_loop n req stream
      end
  end.

Definition GreetServerStream (req : GreetServerStreamRequest.t) (stream : GreetServerStreamServer) :=
  GreetServerStream_loop 5 req stream.

Definition handler : GreetServiceHandler :=
  {| svc_Greet := Greet; svc_GreetStream := GreetStream;
     svc_GreetClientStream := GreetClientStream;
     svc_GreetServerStream := GreetServerStream |}.

End GreetTripleServer.

(** ** [GreetTripleServerGroup1Version1] *)

Definition GroupVersionIdentifier : string := "g1v1".

Module GreetTripleServerGroup1Version1.

Definition Greet (req : GreetRequest.t) : Result Err GreetResponse.t :=
  let resp := GreetResponse.mk (GroupVersionIdentifier ++ GreetRequest.Name req)%string in
  Ok resp.

Fixpoint GreetStream_loop (fuel : nat) (stream : GreetStreamServer)
  : option (GreetStreamServer * option Err) :=
  match fuel with
  | O => None
  | S fuel =>
      let '(stream, r) := Recv stream in
      match r with
      | Error err =>
          if IsEnded err then Some (stream, None)
          else Some (stream, Some err)
      | Ok req =>
          let '(stream, err) :=
            Send (GreetStreamResponse.mk
                    (GroupVersionIdentifier ++ GreetStreamRequest.Name req)%string) stream in
          match err with
          | Some err => Some (stream, Some err)
          | None => GreetStream_loop fuel stream
          end
      end
  end.

Definition GreetStream (stream : GreetStreamServer) :=
  GreetStream_loop (S (length (inbox stream))) stream.

Fixpoint GreetClientStream_loop (fuel : nat) (reqs : list string)
    (stream : GreetClientStreamServer) : option (GreetClientStreamServer * list string) :=
  match fuel with
  | O => None
  | S fuel =>
      let '(stream, more) := ClientRecv stream in
      if more
      then GreetClientStream_loop fuel
             (reqs ++ [GroupVersionIdentifier
                       ++ GreetClientStreamRequest.Name (ClientMsg stream)]%string) stream
      else Some (stream, reqs)
  end.

Definition GreetClientStream (stream : GreetClientStreamServer)
  : option (GreetClientStreamServer * Result Err GreetClientStreamResponse.t) :=
  match GreetClientStream_loop (S (length (inbox (cs_conn stream)))) [] stream with
  | None => None
  | Some (stream, reqs) =>
      let resp := GreetClientStreamResponse.mk (Join reqs ",") in
      match ClientErr stream with
      | Some err => if negb (IsEnded err) then Some (stream, Error err)
                    else Some (stream, Ok resp)
      | None => Some (stream, Ok resp)
      end
  end.

Fixpoint GreetServerStream_loop (n : nat) (req : GreetServerStreamRequest.t)
    (stream : GreetServerStreamServer) : GreetServerStreamServer * option Err :=
  match n with
  | O => (stream, None)
  | S n =>
      let '(stream, err) :=
        Send (GreetServerStreamResponse.mk
                (GroupVersionIdentifier ++ GreetServerStreamRequest.Name req)%string) stream in
      match err with
      | Some err => (stream, Some err)
      | None => GreetServerStream_loop n req stream
      end
  end.

Definition GreetServerStream (req : GreetServerStreamRequest.t) (stream : GreetServerStreamServer) :=
  GreetServerStream_loop 5 req stream.

Definition handler : GreetServiceHandler :=
  {| svc_Greet := Greet; svc_GreetStream := GreetStream;
     svc_GreetClientStream := GreetClientStream;
     svc_GreetServerStream := GreetServerStream |}.

End GreetTripleServerGroup1Version1.

(** ** One handler parameterised by its prefix

    spec.md 9 asks for the two near-identical structs to be one handler
    parameterised by the identity it is bound to.  [prefixed p] is that
    handler, built from the generic loops of [Loops]; the theorem
    [handlers_are_prefixed] shows both Go structs implement it. *)

Definition echo_of (p : string) (req : GreetStreamRequest.t) : GreetStreamResponse.t :=
  GreetStreamResponse.mk (p ++ GreetStreamRequest.Name req)%string.

Definition collect_of (p : string) (req : GreetClientStreamRequest.t) : string :=
  (p ++ GreetClientStreamRequest.Name req)%string.

Definition reply_of (p : string) (req : GreetServerStreamRequest.t) : GreetServerStreamResponse.t :=
  GreetServerStreamResponse.mk (p ++ GreetServerStreamRequest.Name req)%string.

(** What a client-streaming handler returns once its loop has stopped. *)
Definition client_finish (r : GreetClientStreamServer * list string)
  : GreetClientStreamServer * Result Err GreetClientStreamResponse.t :=
  let '(c, reqs) := r in
  let resp := GreetClientStreamResponse.mk (Join reqs ",") in
  (c, match ClientErr c with
      | Some err => if negb (IsEnded err) then Error err else Ok resp
      | None => Ok resp
      end).

Definition prefixed (p : string) : GreetServiceHandler :=
  {| svc_Greet := fun req => Ok (GreetResponse.mk (p ++ GreetRequest.Name req)%string);
     svc_GreetStream := fun s => echo_loop (echo_of p) (S (length (inbox s))) s;
     svc_GreetClientStream := fun c =>
       option_map client_finish
         (collect_loop (collect_of p) (S (length (inbox (cs_conn c)))) [] c);
     svc_GreetServerStream := fun req s => send_n 5 (reply_of p req) s |}.

(** Two handlers are equivalent when every method answers alike. *)
Definition handler_equiv (h1 h2 : GreetServiceHandler) : Prop :=
  (forall req, svc_Greet h1 req = svc_Greet h2 req) /\
  (forall s, svc_GreetStream h1 s = svc_GreetStream h2 s) /\
  (forall c, svc_GreetClientStream h1 c = svc_GreetClientStream h2 c) /\
  (forall req s, svc_GreetServerStream h1 req s = svc_GreetServerStream h2 req s).

#[export] Instance handler_equiv_Equivalence : Equivalence handler_equiv.
Proof.
  split.
  - intros h; repeat split; reflexivity.
  - intros h1 h2 (H1 & H2 & H3 & H4); repeat split; intros; symmetry; auto.
  - intros h1 h2 h3 (H1 & H2 & H3 & H4) (G1 & G2 & G3 & G4);
      repeat split; intros; etransitivity; eauto.
Qed.

(** ** The Go loops are the generic loops *)

(** Induction on the fuel (or count), then the same case split on both
    sides: the two loops take the same branch at every step. *)
Ltac loop_link :=
  let n := fresh "n" in let IH := fresh "IH" in
  intros n; induction n as [|n IH]; intros; unfold echo_of, collect_of, reply_of in *;
  simpl; [reflexivity|];
  repeat match goal with
         | |- context [let '(_, _) := ?e in _] => destruct e
         | |- context [match ?r with Ok _ => _ | Error _ => _ end] => destruct r
         | |- context [match ?o with Some _ => _ | None => _ end] => destruct o
         | |- context [if ?b then _ else _] => destruct b
         end; auto.

Lemma GTS_GreetStream_is_echo_loop : forall fuel s,
  GreetTripleServer.GreetStream_loop fuel s = echo_loop (echo_of "") fuel s.
Proof. loop_link. Qed.

Lemma G1V1_GreetStream_is_echo_loop : forall fuel s,
  GreetTripleServerGroup1Version1.GreetStream_loop fuel s
  = echo_loop (echo_of GroupVersionIdentifier) fuel s.
Proof. loop_link. Qed.

Lemma GTS_GreetClientStream_is_collect_loop : forall fuel reqs c,
  GreetTripleServer.GreetClientStream_loop fuel reqs c = collect_loop (collect_of "") fuel reqs c.
Proof. loop_link. Qed.

Lemma G1V1_GreetClientStream_is_collect_loop : forall fuel reqs c,
  GreetTripleServerGroup1Version1.GreetClientStream_loop fuel reqs c
  = collect_loop (collect_of GroupVersionIdentifier) fuel reqs c.
Proof. loop_link. Qed.

Lemma GTS_GreetServerStream_is_send_n : forall n req s,
  GreetTripleServer.GreetServerStream_loop n req s = send_n n (reply_of "" req) s.
Proof. loop_link. Qed.

Lemma G1V1_GreetServerStream_is_send_n : forall n req s,
  GreetTripleServerGroup1Version1.GreetServerStream_loop n req s
  = send_n n (reply_of GroupVersionIdentifier req) s.
Proof. loop_link. Qed.

Lemma client_finish_match (o : option (GreetClientStreamServer * list string)) :
  match o with
  | None => None
  | Some (stream, reqs) =>
      let resp := GreetClientStreamResponse.mk (Join reqs ",") in
      match ClientErr stream with
      | Some err => if negb (IsEnded err) then Some (stream, Error err) else Some (stream, Ok resp)
      | None => Some (stream, Ok resp)
      end
  end = option_map client_finish o.
Proof. destruct o as [[c reqs]|]; simpl; [destruct (ClientErr c) as [[]|]|]; reflexivity. Qed.

#[export] Hint Rewrite GTS_GreetStream_is_echo_loop G1V1_GreetStream_is_echo_loop
  GTS_GreetClientStream_is_collect_loop G1V1_GreetClientStream_is_collect_loop
  GTS_GreetServerStream_is_send_n G1V1_GreetServerStream_is_send_n client_finish_match : rpc.

(** The closed forms of the registered struct's streaming methods. *)
Lemma GTS_GreetStream_spec s :
  GreetTripleServer.GreetStream s = Some (echo_spec (echo_of "") s).
Proof.
  unfold GreetTripleServer.GreetStream. autorewrite with rpc. apply echo_loop_spec. lia.
Qed.

Lemma G1V1_GreetStream_spec s :
  GreetTripleServerGroup1Version1.GreetStream s = Some (echo_spec (echo_of GroupVersionIdentifier) s).
Proof.
  unfold GreetTripleServerGroup1Version1.GreetStream. autorewrite with rpc. apply echo_loop_spec. lia.
Qed.

Lemma GTS_GreetClientStream_spec c :
  GreetTripleServer.GreetClientStream c = Some (client_finish (collect_spec (collect_of "") [] c)).
Proof.
  unfold GreetTripleServer.GreetClientStream. autorewrite with rpc.
  rewrite collect_loop_spec by lia. reflexivity.
Qed.

(** ** Properties *)

(** C10: Both Go structs implement the handler parameterised by its
    prefix: [GreetTripleServer] with the empty prefix and
    [GreetTripleServerGroup1Version1] with [GroupVersionIdentifier];
    every method agrees on every input. *)
Theorem handlers_are_prefixed :
  handler_equiv GreetTripleServer.handler (prefixed "") /\
  handler_equiv GreetTripleServerGroup1Version1.handler (prefixed GroupVersionIdentifier).
Proof.
  split; repeat split; intros; cbn;
    unfold GreetTripleServer.GreetStream, GreetTripleServer.GreetClientStream,
      GreetTripleServer.GreetServerStream, GreetTripleServerGroup1Version1.GreetStream,
      GreetTripleServerGroup1Version1.GreetClientStream,
      GreetTripleServerGroup1Version1.GreetServerStream;
    autorewrite with rpc; reflexivity.
Qed.

(** C2: Refinement of the bidirectional handlers: on every stream, both
    structs' [GreetStream] return, and return exactly the closed form
    [echo_spec] of [Loops] with their response constructor. *)
Theorem GreetStream_refines_echo_spec s :
  GreetTripleServer.GreetStream s = Some (echo_spec (echo_of "") s) /\
  GreetTripleServerGroup1Version1.GreetStream s
  = Some (echo_spec (echo_of GroupVersionIdentifier) s).
Proof.
  split; [apply GTS_GreetStream_spec | apply G1V1_GreetStream_spec].
Qed.

(** Everything the registered client-streaming handler can return on
    a fresh view, by how the stream ends. *)
Lemma GTS_GreetClientStream_result s :
  exists c', GreetTripleServer.GreetClientStream (NewClientStream s) = Some (c',
    let ok_or_end :=
      if IsEnded (inbox_end s)
      then Ok (GreetClientStreamResponse.mk (Join (map GreetClientStreamRequest.Name (inbox s)) ","))
      else Error (inbox_end s) in
    match fault s with
    | Some (k, f) => if k - ops s <=? length (inbox s) then Error (fault_err f) else ok_or_end
    | None => ok_or_end
    end).
Proof.
  rewrite GTS_GreetClientStream_spec. unfold collect_spec, NewClientStream; cbn [cs_err cs_conn].
  destruct (fault s) as [[k f]|]; [destruct (k - ops s <=? length (inbox s))|];
    unfold client_finish, collect_after, ClientErr; cbn [cs_err];
    rewrite ?IsEnded_fault_err; eexists;
    [reflexivity| |]; destruct (IsEnded (inbox_end s)); reflexivity.
Qed.


(** C4: Bidirectional FIFO echo: on a stream with no fault that the
    client closes cleanly, [GreetStream] sends one response per request,
    carrying its name, in the order the requests arrived, reads every
    request, performs [2 n + 1] stream operations and returns nil. *)
Theorem GreetStream_echoes_in_order s :
  fault s = None -> inbox_end s = EOF ->
  GreetTripleServer.GreetStream s =
  Some (mkStream [] EOF
          (outbox s ++ map (fun r => GreetStreamResponse.mk (GreetStreamRequest.Name r)) (inbox s))
          (ops s + 2 * length (inbox s) + 1) None, None).
Proof.
  intros Hf He. rewrite GTS_GreetStream_spec. unfold echo_spec, echo_done.
  rewrite Hf, He. reflexivity.
Qed.

(** C5: Cancellation mid-stream: when the context is cancelled at an
    operation before the handler reads the end marker, [GreetStream]
    returns the cancellation error (never nil), after sending exactly
    the echoes of the first [div2 b] requests, [b] being the number of
    operations that succeeded. *)
Theorem GreetStream_cancelled s k :
  fault s = Some (k, FCanceled) -> k - ops s <= 2 * length (inbox s) ->
  exists s', GreetTripleServer.GreetStream s = Some (s', Some Canceled) /\
    outbox s' = outbox s ++ map (echo_of "") (firstn (Nat.div2 (k - ops s)) (inbox s)).
Proof.
  intros Hf Hb. rewrite GTS_GreetStream_spec. unfold echo_spec. rewrite Hf.
  apply Nat.leb_le in Hb. rewrite Hb. eexists; split; reflexivity.
Qed.

(** C6: A connection error on the inbound side is not taken for the end
    of the stream: [GreetStream] echoes what arrived and returns that
    error. *)
Theorem GreetStream_hangup_is_error s code :
  fault s = None -> inbox_end s = Transport code ->
  exists s', GreetTripleServer.GreetStream s = Some (s', Some (Transport code)) /\
    outbox s' = outbox s ++ map (echo_of "") (inbox s).
Proof.
  intros Hf He. rewrite GTS_GreetStream_spec. unfold echo_spec, echo_done.
  rewrite Hf, He. eexists; split; reflexivity.
Qed.

(** C7: Client streaming: when the client sends its names and closes
    cleanly, [GreetClientStream] of both structs answers once, with the
    names (prefixed for the g1v1 struct) joined by commas in arrival
    order. *)
Theorem GreetClientStream_joins s :
  fault s = None -> inbox_end s = EOF ->
  (exists c', GreetTripleServer.GreetClientStream (NewClientStream s) =
     Some (c', Ok (GreetClientStreamResponse.mk
                     (Join (map GreetClientStreamRequest.Name (inbox s)) ",")))) /\
  (exists c', GreetTripleServerGroup1Version1.GreetClientStream (NewClientStream s) =
     Some (c', Ok (GreetClientStreamResponse.mk
                     (Join (map (collect_of GroupVersionIdentifier) (inbox s)) ",")))).
Proof.
  intros Hf He. split.
  - destruct (GTS_GreetClientStream_result s) as [c' Hc]. rewrite Hf, He in Hc. eauto.
  - unfold GreetTripleServerGroup1Version1.GreetClientStream. autorewrite with rpc.
    rewrite collect_loop_spec by (simpl; lia).
    unfold collect_spec, NewClientStream, client_finish, collect_after, ClientErr; cbn.
    rewrite Hf, He. eexists. reflexivity.
Qed.

(** C8: The client-streaming handler never answers on partial input: it
    returns a response exactly when the stream ended with the
    end-of-stream marker before any fault struck; a hang-up or a
    cancellation in the middle is returned as the error. *)
Theorem GreetClientStream_ok_iff_clean_end s c' r :
  GreetTripleServer.GreetClientStream (NewClientStream s) = Some (c', r) ->
  (is_ok r = true <->
   inbox_end s = EOF /\ (forall k f, fault s = Some (k, f) -> length (inbox s) < k - ops s)).
Proof.
  destruct (GTS_GreetClientStream_result s) as [c0 Hc]. rewrite Hc. intros H. inv H.
  assert (Hend : is_ok (if IsEnded (inbox_end s) then Ok (GreetClientStreamResponse.mk
             (Join (map GreetClientStreamRequest.Name (inbox s)) ",")) else Error (inbox_end s))
                 = true <-> inbox_end s = EOF)
    by (destruct (inbox_end s); simpl; split; congruence).
  destruct (fault s) as [[k f]|].
  - destruct (Nat.leb_spec (k - ops s) (length (inbox s))); simpl.
    + split; [discriminate|]. intros [_ H']. specialize (H' k f eq_refl). lia.
    + rewrite Hend. split; [intros ->; split; [reflexivity|]; intros ? ? E; inv E; lia|tauto].
  - rewrite Hend. split; [intros ->; split; [reflexivity|discriminate]|tauto].
Qed.

(** C9: Round trip: splitting a successful client-stream response at
    the commas gives back the names the client sent, in order, when
    there was at least one name and none contains a comma. *)
Theorem GreetClientStream_roundtrip s c' resp :
  GreetTripleServer.GreetClientStream (NewClientStream s) = Some (c', Ok resp) ->
  inbox s <> [] ->
  Forall (fun r => has_byte ","%char (GreetClientStreamRequest.Name r) = false) (inbox s) ->
  Split (GreetClientStreamResponse.Greeting resp) ","%char
  = map GreetClientStreamRequest.Name (inbox s).
Proof.
  intros H Hne Hall.
  destruct (GTS_GreetClientStream_result s) as [c0 Hc]. rewrite Hc in H. inv H.
  assert (Hok : forall r, (if IsEnded (inbox_end s) then Ok (GreetClientStreamResponse.mk
             (Join (map GreetClientStreamRequest.Name (inbox s)) ",")) else Error (inbox_end s))
             = Ok r -> GreetClientStreamResponse.Greeting r
                       = Join (map GreetClientStreamRequest.Name (inbox s)) ",")
    by (intros r; destruct (IsEnded (inbox_end s)); intros E; inv E; reflexivity).
  rewrite (Hok resp).
  - apply Split_Join; [destruct (inbox s); simpl; congruence|].
    now apply Forall_map.
  - destruct (fault s) as [[k f]|]; [destruct (k - ops s <=? length (inbox s))|];
      congruence.
Qed.

(** C11: Server streaming: when at least five stream operations can
    succeed, [GreetServerStream] of both structs sends exactly five
    responses, each the request name (prefixed for the g1v1 struct),
    and returns nil. *)
Theorem GreetServerStream_sends_five req s :
  (forall k f, fault s = Some (k, f) -> 5 <= k - ops s) ->
  GreetTripleServer.GreetServerStream req s =
    (mkStream (inbox s) (inbox_end s) (outbox s ++ repeat (reply_of "" req) 5)
              (ops s + 5) (fault s), None) /\
  GreetTripleServerGroup1Version1.GreetServerStream req s =
    (mkStream (inbox s) (inbox_end s) (outbox s ++ repeat (reply_of GroupVersionIdentifier req) 5)
              (ops s + 5) (fault s), None).
Proof.
  intros H. unfold GreetTripleServer.GreetServerStream,
    GreetTripleServerGroup1Version1.GreetServerStream.
  autorewrite with rpc. rewrite !send_n_spec_eq. unfold send_n_spec.
  destruct (fault s) as [[k f]|]; [|split; reflexivity].
  specialize (H k f eq_refl). destruct (Nat.ltb_spec (k - ops s) 5); [lia|].
  split; reflexivity.
Qed.

(** C12: A failing send stops the server stream at once: if only [b < 5]
    operations can succeed, [GreetServerStream] sends [b] responses and
    returns the fault's error. *)
Theorem GreetServerStream_send_error req s k f :
  fault s = Some (k, f) -> k - ops s < 5 ->
  GreetTripleServer.GreetServerStream req s =
    (mkStream (inbox s) (inbox_end s) (outbox s ++ repeat (reply_of "" req) (k - ops s))
              (ops s + (k - ops s) + 1) (fault s), Some (fault_err f)).
Proof.
  intros Hf Hb. unfold GreetTripleServer.GreetServerStream. autorewrite with rpc.
  rewrite send_n_spec_eq. unfold send_n_spec. rewrite Hf.
  apply Nat.ltb_lt in Hb. now rewrite Hb.
Qed.

(** C24: Bounds of the bidirectional handler, on every stream whatever
    its faults: it returns, only appends to the outbound log, sends at
    most one response per inbound message and performs at most
    [2 n + 1] stream operations. *)
Theorem GreetStream_bounds s :
  exists s' e, GreetTripleServer.GreetStream s = Some (s', e) /\
    (exists sent, outbox s' = outbox s ++ sent /\ length sent <= length (inbox s)) /\
    ops s' <= ops s + 2 * length (inbox s) + 1.
Proof.
  rewrite GTS_GreetStream_spec. destruct (echo_spec_bounds (echo_of "") s) as [Hb Hops].
  destruct (echo_spec (echo_of "") s) as [s' e]. exists s', e. auto.
Qed.

(** ** Witnesses on concrete streams *)

Definition bidi_ab : GreetStreamServer :=
  mkStream [GreetStreamRequest.mk "a"; GreetStreamRequest.mk "b"] EOF [] 0 None.

Definition client_abc (e : Err) (flt : option (nat * Fault)) :
  Stream GreetClientStreamRequest.t GreetClientStreamResponse.t :=
  mkStream [GreetClientStreamRequest.mk "a"; GreetClientStreamRequest.mk "b";
            GreetClientStreamRequest.mk "c"] e [] 0 flt.


Lemma GreetStream_echoes_in_order_witness :
  GreetTripleServer.GreetStream bidi_ab =
  Some (mkStream [] EOF [GreetStreamResponse.mk "a"; GreetStreamResponse.mk "b"] 5 None, None).
Proof. apply (GreetStream_echoes_in_order bidi_ab); reflexivity. Defined.

Lemma GreetStream_cancelled_witness :
  exists s', GreetTripleServer.GreetStream
               (mkStream [GreetStreamRequest.mk "a"; GreetStreamRequest.mk "b"] EOF [] 0
                         (Some (3, FCanceled))) = Some (s', Some Canceled) /\
    outbox s' = [GreetStreamResponse.mk "a"].
Proof.
  apply (GreetStream_cancelled
           (mkStream [GreetStreamRequest.mk "a"; GreetStreamRequest.mk "b"] EOF [] 0
                     (Some (3, FCanceled))) 3); simpl; [reflexivity | lia].
Defined.

Lemma GreetStream_hangup_is_error_witness :
  exists s', GreetTripleServer.GreetStream
               (mkStream [GreetStreamRequest.mk "a"] (Transport 14) [] 0 None)
             = Some (s', Some (Transport 14)) /\
    outbox s' = [GreetStreamResponse.mk "a"].
Proof.
  apply (GreetStream_hangup_is_error
           (mkStream [GreetStreamRequest.mk "a"] (Transport 14) [] 0 None) 14); reflexivity.
Defined.

Lemma GreetClientStream_joins_witness :
  exists c', GreetTripleServer.GreetClientStream (NewClientStream (client_abc EOF None)) =
     Some (c', Ok (GreetClientStreamResponse.mk "a,b,c")).
Proof. apply (GreetClientStream_joins (client_abc EOF None)); reflexivity. Defined.

Lemma GreetClientStream_ok_iff_clean_end_witness :
  exists c' r, GreetTripleServer.GreetClientStream
                 (NewClientStream (client_abc EOF (Some (2, FTransport 1)))) = Some (c', r) /\
    is_ok r = false.
Proof.
  destruct (GTS_GreetClientStream_result (client_abc EOF (Some (2, FTransport 1)))) as [c' H].
  exists c'. eexists. split; [exact H|].
  destruct (is_ok _) eqn:E; [|reflexivity].
  apply (GreetClientStream_ok_iff_clean_end _ _ _ H) in E as [_ E].
  specialize (E 2 (FTransport 1) eq_refl). simpl in E. lia.
Defined.

Lemma GreetClientStream_roundtrip_witness :
  Split "a,b,c" ","%char = ["a"; "b"; "c"].
Proof.
  destruct (GreetClientStream_joins (client_abc EOF None) eq_refl eq_refl) as [[c' H] _].
  exact (GreetClientStream_roundtrip (client_abc EOF None) c' _ H
           ltac:(discriminate) ltac:(repeat constructor)).
Defined.

Lemma GreetServerStream_sends_five_witness :
  fst (GreetTripleServer.GreetServerStream (GreetServerStreamRequest.mk "ping")
         (mkStream [] EOF [] 0 None)) =
  mkStream [] EOF (repeat (GreetServerStreamResponse.mk "ping") 5) 5 None.
Proof.
  rewrite (proj1 (GreetServerStream_sends_five (GreetServerStreamRequest.mk "ping")
                   (mkStream [] EOF [] 0 None) ltac:(discriminate))).
  reflexivity.
Defined.

Lemma GreetServerStream_send_error_witness :
  GreetTripleServer.GreetServerStream (GreetServerStreamRequest.mk "ping")
    (mkStream [] EOF [] 0 (Some (2, FTransport 7))) =
  (mkStream [] EOF (repeat (GreetServerStreamResponse.mk "ping") 2) 3 (Some (2, FTransport 7)),
   Some (Transport 7)).
Proof.
  exact (GreetServerStream_send_error (GreetServerStreamRequest.mk "ping")
           (mkStream [] EOF [] 0 (Some (2, FTransport 7))) 2 (FTransport 7)
           eq_refl ltac:(simpl; lia)).
Defined.

