(* ===== verification/Dispatch.v ===== *)
(** * The per-call dispatch loop of the triple runtime

    The runtime (outside [src/], modelled from spec.md 4.2 and 5) drives
    each call through the states [Init -> Active -> Completed | Failed].
    [step] is the transition relation, [call_step] its executable form,
    [run] folds a sequence of events.  Events are the invocation of the
    handler ([Start]), its return with nil or an error ([Return]) and a
    cancellation of the call's context ([Cancel]).

    A handler is seen at this boundary as one of the four call shapes
    over wire payloads ([Handler]); [drive] performs one call: it reads
    the single request of the unary and server-streaming shapes, builds
    the view the shape needs, invokes the handler once and turns its
    return into events.  [dispatch] is [drive] followed by [run] from
    [Init]: the call's terminal state and the stream as the peer sees
    it. *)

From Stdlib Require Import String Bool Arith Lia List.
From S2P Require Import Prelude Stream.
Import ListNotations.
Local Open Scope list_scope.

(** ** The call state machine *)

Inductive CallState : Type :=
| Init
| Active
| Completed
| Failed (e : Err).

Inductive CallEvent : Type :=
| Start
| Return (r : option Err)
| Cancel.

Definition is_terminal (st : CallState) : bool :=
  match st with Completed | Failed _ => true | _ => false end.

(** The transitions the spec allows. *)
Inductive step : CallState -> CallEvent -> CallState -> Prop :=
| step_start : step Init Start Active
| step_return_ok : step Active (Return None) Completed
| step_return_err e : step Active (Return (Some e)) (Failed e)
| step_cancel_init : step Init Cancel (Failed Canceled)
| step_cancel_active : step Active Cancel (Failed Canceled).

(** Its executable form: an event that has no transition from the
    current state (any event on a terminal state, a second [Start], a
    [Return] before [Start]) leaves the state as it is. *)
Definition call_step (st : CallState) (ev : CallEvent) : CallState :=
  match st, ev with
  | Init, Start => Active
  | Active, Return None => Completed
  | Active, Return (Some e) => Failed e
  | Init, Cancel => Failed Canceled
  | Active, Cancel => Failed Canceled
  | st, _ => st
  end.

Definition run (st : CallState) (evs : list CallEvent) : CallState :=
  fold_left call_step evs st.

(** Reachability: the states a call can be in after some events. *)
Inductive reachable : CallState -> Prop :=
| reach_init : reachable Init
| reach_step st ev st' : reachable st -> step st ev st' -> reachable st'.

(** ** Handlers at the runtime boundary *)

(** The runtime never looks into payloads (spec.md 6). *)
Definition Payload := string.

Abbreviation WireStream := (Stream Payload Payload).
Abbreviation WireClientStream := (ClientStream Payload Payload).

#[export] Instance Payload_zero : GoZero Payload := ""%string.

Inductive Handler : Type :=
| HUnary (f : Payload -> Result Err Payload)
| HServerStream (f : Payload -> WireStream -> WireStream * option Err)
| HClientStream (f : WireClientStream -> option (WireClientStream * Result Err Payload))
| HBidiStream (f : WireStream -> option (WireStream * option Err)).

(** One call: the events it produces and the stream afterwards.  A
    handler that does not return (its model ran out of fuel) leaves
    the call [Active]. *)
Definition drive (h : Handler) (s : WireStream) : list CallEvent * WireStream :=
  match h with
  | HUnary f =>
      let '(s, r) := Recv s in
      match r with
      | Error e => ([Start; Return (Some e)], s)
      | Ok req =>
          match f req with
          | Error e => ([Start; Return (Some e)], s)
          | Ok resp =>
              let '(s, err) := Send resp s in
              ([Start; Return err], s)
          end
      end
  | HServerStream f =>
      let '(s, r) := Recv s in
      match r with
      | Error e => ([Start; Return (Some e)], s)
      | Ok req => let '(s, err) := f req s in ([Start; Return err], s)
      end
  | HClientStream f =>
      match f (NewClientStream s) with
      | None => ([Start], s)
      | Some (c, Error e) => ([Start; Return (Some e)], cs_conn c)
      | Some (c, Ok resp) =>
          let '(s, err) := Send resp (cs_conn c) in
          ([Start; Return err], s)
      end
  | HBidiStream f =>
      match f s with
      | None => ([Start], s)
      | Some (s, err) => ([Start; Return err], s)
      end
  end.

Definition dispatch (h : Handler) (s : WireStream) : CallState * WireStream :=
  let '(evs, s) := drive h s in (run Init evs, s).

(** How many times a run of events takes the call from a non-terminal
    state to a terminal one. *)
Fixpoint terminal_entries (st : CallState) (evs : list CallEvent) : nat :=
  match evs with
  | [] => 0
  | ev :: evs =>
      let st' := call_step st ev in
      (if negb (is_terminal st) && is_terminal st' then 1 else 0) + terminal_entries st' evs
  end.

Definition is_return (ev : CallEvent) : bool :=
  match ev with Return _ => true | _ => false end.

(** ** The machine *)

Lemma call_step_terminal st ev : is_terminal st = true -> call_step st ev = st.
Proof. destruct st, ev; try destruct r; simpl; congruence. Qed.

Lemma run_terminal st evs : is_terminal st = true -> run st evs = st.
Proof.
  revert st; induction evs as [|ev evs IH]; intros st H; [reflexivity|].
  simpl. rewrite call_step_terminal by exact H. now apply IH.
Qed.

Lemma run_app st evs1 evs2 : run st (evs1 ++ evs2) = run (run st evs1) evs2.
Proof. apply fold_left_app. Qed.

(** [call_step] takes exactly the transitions of [step], and stays put
    on the events [step] does not allow. *)
Lemma call_step_step st ev st' : step st ev st' -> call_step st ev = st'.
Proof. intros H; inv H; reflexivity. Qed.

Lemma call_step_stuck st ev : (forall st', ~ step st ev st') -> call_step st ev = st.
Proof.
  intros H. destruct st as [| | |e0], ev as [|[e|]|]; simpl; try reflexivity; exfalso; eapply H; constructor.
Qed.

#[export] Hint Constructors step reachable : rpc.
#[export] Hint Resolve call_step_step : rpc.

Lemma terminal_entries_terminal st evs : is_terminal st = true -> terminal_entries st evs = 0.
Proof.
  revert st; induction evs as [|ev evs IH]; intros st H; [reflexivity|].
  simpl. rewrite call_step_terminal, H by exact H. simpl. now apply IH.
Qed.

(** Without a [Return], a call is still waiting, or was cancelled. *)
Lemma run_no_return evs :
  forallb (fun ev => negb (is_return ev)) evs = true ->
  run Init evs = Init \/ run Init evs = Active \/ run Init evs = Failed Canceled.
Proof.
  intros H. cut (forall st, st = Init \/ st = Active \/ st = Failed Canceled ->
                 let r := run st evs in r = Init \/ r = Active \/ r = Failed Canceled);
    [intros G; apply G; auto|].
  induction evs as [|ev evs IH]; intros st Hst; [exact Hst|].
  simpl in H. apply andb_prop in H as [Hev Hrest]. simpl.
  apply IH; [exact Hrest|].
  destruct Hst as [->|[->| ->]]; destruct ev; simpl in *; try discriminate; auto.
Qed.

(** ** Properties of the machine *)

(** A call enters a terminal state at most once, whatever events
    follow: Completed and Failed are never left, so no call reports two
    outcomes. *)
Theorem at_most_one_terminal_entry st evs : terminal_entries st evs <= 1.
Proof.
  revert st; induction evs as [|ev evs IH]; intros st; simpl; [lia|].
  destruct (is_terminal st) eqn:Ht; simpl.
  - specialize (IH (call_step st ev)). lia.
  - destruct (is_terminal (call_step st ev)) eqn:Ht'.
    + rewrite terminal_entries_terminal by exact Ht'. lia.
    + apply IH.
Qed.

(** Cancellation before the handler has returned fails the call
    with the cancellation error, never Completed, whatever happens
    before (messages, repeated cancellations) and after (a late return,
    another cancellation). *)
Theorem cancel_before_return_fails pre post :
  forallb (fun ev => negb (is_return ev)) pre = true ->
  run Init (pre ++ Cancel :: post) = Failed Canceled.
Proof.
  intros H. rewrite run_app. simpl.
  destruct (run_no_return pre H) as [->|[->| ->]]; simpl; now apply run_terminal.
Qed.

(** Refinement of the step relation: every state the executable
    machine reaches from [Init] on any event sequence is reachable by
    the transitions the spec allows. *)
Theorem run_reachable evs : reachable (run Init evs).
Proof.
  cut (forall st, reachable st -> reachable (run st evs)); [intros G; apply G; constructor|].
  induction evs as [|ev evs IH]; intros st Hst; [exact Hst|]. simpl. apply IH.
  destruct st as [| | |e0], ev as [|[e|]|]; simpl; eauto with rpc.
Qed.

(** The unary driver in closed form. *)
Lemma dispatch_unary_spec f s x rest :
  (forall k flt, fault s = Some (k, flt) -> 2 <= k - ops s) ->
  inbox s = x :: rest ->
  dispatch (HUnary f) s =
  match f x with
  | Ok y => (Completed, mkStream rest (inbox_end s) (outbox s ++ [y]) (S (S (ops s))) (fault s))
  | Error e => (Failed e, mkStream rest (inbox_end s) (outbox s) (S (ops s)) (fault s))
  end.
Proof.
  intros Hb Hi. unfold dispatch, drive.
  assert (Hf : failing s = None).
  { unfold failing. destruct (fault s) as [[k flt]|]; [|reflexivity].
    specialize (Hb k flt eq_refl). destruct (Nat.leb_spec k (ops s)); [lia|reflexivity]. }
  rewrite (Recv_head s x rest Hf Hi).
  destruct (f x) as [y|e]; [|reflexivity].
  rewrite Send_append; [reflexivity|].
  unfold failing; cbn [fault ops]. destruct (fault s) as [[k flt]|] eqn:E; [|reflexivity].
  specialize (Hb k flt eq_refl). destruct (Nat.leb_spec k (S (ops s))); [lia|reflexivity].
Qed.

(** A bidirectional call is Completed exactly when its handler
    returns nil; the stream the peer sees is the one the handler left. *)
Theorem dispatch_bidi_completed f s s' :
  dispatch (HBidiStream f) s = (Completed, s') <-> f s = Some (s', None).
Proof.
  unfold dispatch, drive. destruct (f s) as [[s1 [e|]]|]; simpl;
    split; intros H; inv H; reflexivity.
Qed.

(** A handler whose streaming body always returns (never runs out of
    fuel). *)
Definition returns (h : Handler) : Prop :=
  match h with
  | HClientStream f => forall c, f c <> None
  | HBidiStream f => forall s, f s <> None
  | _ => True
  end.

(** A handler that returns is started once and returns once: its call
    produces exactly the events [Start] and [Return r]. *)
Lemma drive_once h s : returns h -> exists r, fst (drive h s) = [Start; Return r].
Proof.
  unfold drive. destruct h as [f|f|f|f]; simpl; intros Hr.
  - destruct (Recv s) as [s1 [req|e]]; [|eexists; reflexivity].
    destruct (f req) as [resp|e]; [|eexists; reflexivity].
    destruct (Send resp s1) as [s2 r]; eexists; reflexivity.
  - destruct (Recv s) as [s1 [req|e]]; [|eexists; reflexivity].
    destruct (f req s1) as [s2 r]; eexists; reflexivity.
  - destruct (f (NewClientStream s)) as [[c [resp|e]]|] eqn:E; [| eexists; reflexivity | now destruct (Hr _ E)].
    destruct (Send resp (cs_conn c)) as [s2 r]; eexists; reflexivity.
  - destruct (f s) as [[s1 r]|] eqn:E; [eexists; reflexivity | now destruct (Hr _ E)].
Qed.

(** [Start] then [Return r] ends in a terminal state. *)
Lemma run_start_return_terminal r : is_terminal (run Init [Start; Return r]) = true.
Proof. now destruct r. Qed.

(** A call to a handler that returns ends Completed or Failed. *)
Lemma dispatch_terminal h s : returns h -> is_terminal (fst (dispatch h s)) = true.
Proof.
  intros Hr. destruct (drive_once h s Hr) as [r Hd]. unfold dispatch.
  destruct (drive h s) as [evs s']. cbn in Hd |- *. subst evs. apply run_start_return_terminal.
Qed.

(** ** Examples *)

Example terminal_entries_example :
  terminal_entries Init [Start; Cancel; Return None; Cancel] = 1.
Proof. reflexivity. Defined.

Example cancel_before_return_fails_example :
  run Init [Start; Cancel; Return None] = Failed Canceled.
Proof. exact (cancel_before_return_fails [Start] [Return None] eq_refl). Defined.

Example dispatch_unary_example :
  dispatch (HUnary (fun p => Ok p)) (mkStream ["x"%string] EOF [] 0 None) =
  (Completed, mkStream [] EOF ["x"%string] 2 None).
Proof.
  exact (dispatch_unary_spec (fun p => Ok p) (mkStream ["x"%string] EOF [] 0 None) "x"%string []
           ltac:(discriminate) eq_refl).
Defined.
