(* ===== verification/Registry.v ===== *)
(** * The service registry of the triple runtime

    The runtime keeps the services registered at startup (spec.md 3 and
    4.1; the registry is part of the dubbo-go server, outside [src/]).  A
    service is identified by its name, group and version; the empty
    group or version is a value of its own, not a wildcard.  The
    registry is a [gmap] from identities to descriptors, each holding a
    [gmap] from method names to handlers.  [register] is an atomic
    insert-if-absent that reports a duplicate identity, [resolve] an
    exact lookup on all four keys that reports NotFound.

    The handler type is a parameter of the Section: the registry never
    looks into handlers. *)

From stdpp Require Import base gmap strings list.
From S2P Require Import Prelude.

(** ** Identities *)

Record ServiceIdentity : Type := mkIdentity {
  id_name : string;
  id_group : string;
  id_version : string
}.

#[export] Instance ServiceIdentity_eq_dec : EqDecision ServiceIdentity.
Proof. solve_decision. Defined.

#[export] Instance ServiceIdentity_countable : Countable ServiceIdentity :=
  inj_countable' (fun i => (id_name i, id_group i, id_version i))
                 (fun '(n, g, v) => mkIdentity n g v)
                 (fun i => match i with mkIdentity _ _ _ => eq_refl end).

Inductive RegError : Type :=
| DuplicateIdentity
| NotFound.

Record ServiceDescriptor (H : Type) : Type := mkDescriptor {
  sd_identity : ServiceIdentity;
  sd_methods : gmap string H
}.
Arguments mkDescriptor {H} sd_identity sd_methods.
Arguments sd_identity {H} _.
Arguments sd_methods {H} _.

Section Registry.
Context {H : Type}.
Implicit Types (d : ServiceDescriptor H) (reg : gmap ServiceIdentity (ServiceDescriptor H)).

(** [register(descriptor)]: fails if the identity is taken. *)
Definition register d reg : Result RegError (gmap ServiceIdentity (ServiceDescriptor H)) :=
  match reg !! sd_identity d with
  | Some _ => Error DuplicateIdentity
  | None => Ok (<[sd_identity d := d]> reg)
  end.

(** [resolve(name, group, version, method)]: exact match only. *)
Definition resolve reg (id : ServiceIdentity) (method : string) : Result RegError H :=
  match reg !! id with
  | None => Error NotFound
  | Some d =>
      match sd_methods d !! method with
      | None => Error NotFound
      | Some h => Ok h
      end
  end.

(** The startup sequence: register every descriptor in turn, stopping
    at the first error. *)
Fixpoint register_all (ds : list (ServiceDescriptor H)) reg
  : Result RegError (gmap ServiceIdentity (ServiceDescriptor H)) :=
  match ds with
  | [] => Ok reg
  | d :: ds => Result_bind (register d reg) (register_all ds)
  end.

(** Every descriptor is filed under its own identity. *)
Definition registry_wf reg : Prop := map_Forall (fun id d => sd_identity d = id) reg.

(** ** Lemmas *)

Lemma register_Ok d reg reg' :
  register d reg = Ok reg' -> reg !! sd_identity d = None /\ reg' = <[sd_identity d := d]> reg.
Proof. unfold register. destruct (reg !! sd_identity d); intros E; inv E; auto. Qed.

Lemma register_Ok_iff d reg :
  reg !! sd_identity d = None -> register d reg = Ok (<[sd_identity d := d]> reg).
Proof. unfold register. intros ->. reflexivity. Qed.

Lemma resolve_lookup reg id m h :
  resolve reg id m = Ok h <-> exists d, reg !! id = Some d /\ sd_methods d !! m = Some h.
Proof.
  unfold resolve. split.
  - destruct (reg !! id) as [d|]; [|discriminate].
    destruct (sd_methods d !! m) eqn:E; intros Hr; inv Hr; eauto.
  - intros (d & -> & ->). reflexivity.
Qed.

Lemma not_in_map_identity (i : ServiceIdentity) ds :
  Forall (fun d' => i <> sd_identity d') ds <-> ~ In i (map sd_identity ds).
Proof.
  rewrite Forall_forall. split.
  - intros Hall Hin. apply in_map_iff in Hin as (d' & Hd & Hin).
    apply list_elem_of_In in Hin. exact (Hall d' Hin (eq_sym Hd)).
  - intros Hn d' Hin Heq. apply Hn, in_map_iff. exists d'. split; [done|].
    by apply list_elem_of_In.
Qed.

(** ** Properties *)

(** Registration keeps the registry well formed: every descriptor
    stays filed under its own identity. *)
Theorem register_preserves_wf d reg reg' :
  registry_wf reg -> register d reg = Ok reg' -> registry_wf reg'.
Proof.
  intros Hwf Hr. apply register_Ok in Hr as [_ ->].
  by apply map_Forall_insert_2.
Qed.

(** Resolution is exact: in a well-formed registry, a handler that
    [resolve] returns for (identity, method) is the method of the
    descriptor registered under exactly that identity; it never comes
    from another name, group or version. *)
Theorem resolve_exact reg id m h :
  registry_wf reg -> resolve reg id m = Ok h ->
  exists d, reg !! id = Some d /\ sd_identity d = id /\ sd_methods d !! m = Some h.
Proof.
  intros Hwf Hr. apply resolve_lookup in Hr as (d & Hd & Hm).
  exists d. repeat split; [done| |done]. exact (Hwf id d Hd).
Qed.

(** After a successful registration the new service resolves to
    its own methods, and every other identity resolves as before. *)
Theorem register_then_resolve d reg reg' :
  register d reg = Ok reg' ->
  (forall m, resolve reg' (sd_identity d) m =
             match sd_methods d !! m with Some h => Ok h | None => Error NotFound end) /\
  (forall id m, id <> sd_identity d -> resolve reg' id m = resolve reg id m).
Proof.
  intros Hr. apply register_Ok in Hr as [_ ->]. split.
  - intros m. unfold resolve. by rewrite lookup_insert_eq.
  - intros id m Hne. unfold resolve. by rewrite lookup_insert_ne.
Qed.

(** Duplicate identities are rejected: once a descriptor is
    registered, registering another with the same (name, group,
    version) fails with DuplicateIdentity, and the first keeps
    resolving to its own methods. *)
Theorem register_duplicate d1 d2 reg reg1 :
  register d1 reg = Ok reg1 -> sd_identity d2 = sd_identity d1 ->
  register d2 reg1 = Error DuplicateIdentity /\
  (forall m, resolve reg1 (sd_identity d1) m =
             match sd_methods d1 !! m with Some h => Ok h | None => Error NotFound end).
Proof.
  intros Hr Hid. split.
  - apply register_Ok in Hr as [_ ->]. unfold register. by rewrite Hid, lookup_insert_eq.
  - exact (proj1 (register_then_resolve d1 reg reg1 Hr)).
Qed.

(** An identity nobody registered resolves to NotFound, never to a
    default or fallback service. *)
Theorem resolve_unregistered reg id m : reg !! id = None -> resolve reg id m = Error NotFound.
Proof. intros Hn. unfold resolve. by rewrite Hn. Qed.

(** Startup succeeds exactly when the descriptors have pairwise
    distinct identities, none already taken: the process refuses to
    serve rather than silently dropping one of two registrations. *)
Theorem register_all_ok ds reg0 :
  is_ok (register_all ds reg0) = true <->
  NoDup (map sd_identity ds) /\ Forall (fun d => reg0 !! sd_identity d = None) ds.
Proof.
  revert reg0; induction ds as [|d ds IH]; intros reg0; simpl.
  - split; [intros _; split; constructor | reflexivity].
  - unfold register. destruct (reg0 !! sd_identity d) eqn:E; simpl.
    + split; [discriminate|]. intros [_ HF]; inv HF; congruence.
    + rewrite IH, Forall_cons, NoDup_cons.
      assert (Hins : Forall (fun d' => <[sd_identity d:=d]> reg0 !! sd_identity d' = None) ds
                     <-> Forall (fun d' => sd_identity d <> sd_identity d') ds /\
                         Forall (fun d' => reg0 !! sd_identity d' = None) ds).
      { rewrite <- Forall_and. apply Forall_iff. intros d'.
        rewrite lookup_insert_None. tauto. }
      rewrite Hins, not_in_map_identity, list_elem_of_In. tauto.
Qed.

End Registry.

#[export] Hint Resolve register_Ok_iff : rpc.

(** ** Examples *)

Definition svc_id : ServiceIdentity := mkIdentity "svc" "" "".
Definition svc_g1v1 : ServiceIdentity := mkIdentity "svc" "g1" "v1".
Definition desc1 : ServiceDescriptor nat := mkDescriptor svc_id {["m" := 1]}.
Definition desc2 : ServiceDescriptor nat := mkDescriptor svc_id {["m" := 2]}.
Definition reg_empty : gmap ServiceIdentity (ServiceDescriptor nat) := ∅.
Definition reg1 : gmap ServiceIdentity (ServiceDescriptor nat) := <[svc_id := desc1]> reg_empty.

Example register_preserves_wf_example : registry_wf reg1.
Proof. apply (register_preserves_wf desc1 reg_empty); [apply map_Forall_empty | reflexivity]. Defined.

Example resolve_exact_example :
  exists d, reg1 !! svc_id = Some d /\ sd_identity d = svc_id /\ sd_methods d !! "m" = Some 1.
Proof.
  apply (resolve_exact reg1 svc_id "m" 1); [|reflexivity].
  apply (register_preserves_wf desc1 reg_empty); [apply map_Forall_empty | reflexivity].
Defined.

Example register_then_resolve_example :
  resolve reg1 svc_id "m" = Ok 1 /\ resolve reg1 svc_g1v1 "m" = resolve reg_empty svc_g1v1 "m".
Proof.
  destruct (register_then_resolve desc1 reg_empty reg1 ltac:(reflexivity)) as [H1 H2].
  split; [exact (H1 "m") | apply H2; discriminate].
Defined.

Example register_duplicate_example : register desc2 reg1 = Error DuplicateIdentity.
Proof. exact (proj1 (register_duplicate desc1 desc2 reg_empty reg1 ltac:(reflexivity) eq_refl)). Defined.

Example resolve_unregistered_example : resolve reg1 svc_g1v1 "m" = Error NotFound.
Proof. apply resolve_unregistered. reflexivity. Defined.
