(* ===== verification/Server.v ===== *)
(** * The server of main.go and its calls end to end

    [main] (main.go lines 142-160) builds a triple server on port 20000,
    registers [GreetTripleServer] with the generated
    [RegisterGreetServiceHandler] and serves; each error is a panic.
    The generated code (greet.triple.go, outside [src/]) binds the four
    methods of a [GreetServiceHandler] under the identity
    [greet.GreetService] with empty group and version, converting
    between wire payloads and the typed messages; it is modelled from
    spec.md 6 as [RegisterGreetServiceHandler] and [greet_methods].

    [handle_call] is the runtime's entry point for one inbound call:
    resolve, then [dispatch].  The theorems of this file follow a call
    from the wire through the registry, the dispatcher and the handler
    of main.go. *)

From Stdlib Require Import ZArith.
From stdpp Require Import base gmap strings list.
From S2P Require Import Prelude Stream Loops Greet Dispatch Registry.

(** ** Conversions between the wire and the typed messages *)

Definition stream_map {I O I' O'} (fi : I -> I') (fo : O -> O') (s : Stream I O) : Stream I' O' :=
  mkStream (List.map fi (inbox s)) (inbox_end s) (List.map fo (outbox s)) (ops s) (fault s).

Definition client_map {I O I' O'} (fi : I -> I') (fo : O -> O') (c : ClientStream I O)
  : ClientStream I' O' :=
  mkClientStream (stream_map fi fo (cs_conn c)) (fi (cs_msg c)) (cs_err c).

Definition result_map {E A B} (f : A -> B) (r : Result E A) : Result E B :=
  match r with Ok v => Ok (f v) | Error e => Error e end.

(** ** The generated registration code *)

Definition GreetServiceName : string := "greet.GreetService".

Definition GreetServiceIdentity : ServiceIdentity := mkIdentity GreetServiceName "" "".

Definition greet_methods (h : GreetServiceHandler) : gmap string Handler :=
  <["Greet" := HUnary (fun p =>
        result_map GreetResponse.Greeting (svc_Greet h (GreetRequest.mk p)))]>
  (<["GreetStream" := HBidiStream (fun s =>
        option_map (fun r => (stream_map GreetStreamRequest.Name GreetStreamResponse.Greeting r.1, r.2))
          (svc_GreetStream h (stream_map GreetStreamRequest.mk GreetStreamResponse.mk s)))]>
  (<["GreetClientStream" := HClientStream (fun c =>
        option_map (fun r => (client_map GreetClientStreamRequest.Name
                                GreetClientStreamResponse.Greeting r.1,
                              result_map GreetClientStreamResponse.Greeting r.2))
          (svc_GreetClientStream h
             (client_map GreetClientStreamRequest.mk GreetClientStreamResponse.mk c)))]>
  (<["GreetServerStream" := HServerStream (fun p s =>
        let r := svc_GreetServerStream h (GreetServerStreamRequest.mk p)
                   (stream_map GreetServerStreamRequest.mk GreetServerStreamResponse.mk s) in
        (stream_map GreetServerStreamRequest.Name GreetServerStreamResponse.Greeting r.1, r.2))]>
   ∅))).

(** The server: its port and its registry. *)
Record Server : Type := mkServer {
  srv_port : Z;
  srv_registry : gmap ServiceIdentity (ServiceDescriptor Handler)
}.

(** [server.NewServer(server.WithServerProtocol(protocol.WithTriple(),
    protocol.WithPort(port)))]. *)
Definition NewServer (port : Z) : Result RegError Server := Ok (mkServer port ∅).

(** The service options the generated registration accepts
    ([opts ...server.ServiceOption]): the group and the version the
    service is filed under. *)
Inductive ServiceOption : Type :=
| WithGroup (group : string)
| WithVersion (version : string).

(** [RegisterGreetServiceHandler(srv, hdlr, opts...)]: the default
    identity, with each option applied in turn (a later option wins). *)
Definition RegisterGreetServiceHandler (srv : Server) (h : GreetServiceHandler)
    (opts : list ServiceOption) : Result RegError Server :=
  let id := fold_left (fun id o =>
               match o with
               | WithGroup g => mkIdentity (id_name id) g (id_version id)
               | WithVersion v => mkIdentity (id_name id) (id_group id) v
               end) opts GreetServiceIdentity in
  match register (mkDescriptor id (greet_methods h)) (srv_registry srv) with
  | Ok reg => Ok (mkServer (srv_port srv) reg)
  | Error e => Error e
  end.

(** [main]: every error panics, so [main] either yields the serving
    server or the error it panics with. *)
Definition main : Result RegError Server :=
  match NewServer 20000%Z with
  | Error e => Error e
  | Ok srv =>
      match RegisterGreetServiceHandler srv GreetTripleServer.handler [] with
      | Error e => Error e
      | Ok srv => Ok srv
      end
  end.

(** One inbound call on a serving server. *)
Definition handle_call (srv : Server) (id : ServiceIdentity) (method : string) (s : WireStream)
  : Result RegError (CallState * WireStream) :=
  match resolve (srv_registry srv) id method with
  | Error e => Error e
  | Ok h => Ok (dispatch h s)
  end.

(** ** Lemmas *)

Lemma stream_map_id {I O} (s : Stream I O) : stream_map (fun x => x) (fun y => y) s = s.
Proof. destruct s; unfold stream_map; simpl. by rewrite !List.map_id. Qed.

Lemma stream_map_compose {I O I' O' I'' O''} (fi : I -> I') (fo : O -> O')
    (gi : I' -> I'') (go : O' -> O'') (s : Stream I O) :
  stream_map gi go (stream_map fi fo s) = stream_map (fun x => gi (fi x)) (fun y => go (fo y)) s.
Proof. unfold stream_map; simpl. by rewrite !List.map_map. Qed.

(** The server [main] serves. *)
Definition main_srv : Server :=
  mkServer 20000%Z {[GreetServiceIdentity :=
                       mkDescriptor GreetServiceIdentity (greet_methods GreetTripleServer.handler)]}.

Lemma main_ok : main = Ok main_srv.
Proof. reflexivity. Qed.

Lemma handle_main id m s :
  handle_call main_srv id m s =
  if decide (id = GreetServiceIdentity) then
    match greet_methods GreetTripleServer.handler !! m with
    | Some h => Ok (dispatch h s)
    | None => Error NotFound
    end
  else Error NotFound.
Proof.
  unfold handle_call, resolve, main_srv; cbn [srv_registry].
  case_decide as Hid.
  - subst. rewrite lookup_singleton_eq. cbn [sd_methods].
    by destruct (greet_methods GreetTripleServer.handler !! m).
  - by rewrite lookup_singleton_ne by congruence.
Qed.

Lemma map_Greeting_echo (xs : list string) :
  List.map GreetStreamResponse.Greeting
    (List.map (echo_of "") (List.map GreetStreamRequest.mk xs)) = xs.
Proof. rewrite !List.map_map. apply List.map_id. Qed.

Lemma map_Greeting_mk (xs : list string) :
  List.map GreetStreamResponse.Greeting (List.map GreetStreamResponse.mk xs) = xs.
Proof. rewrite List.map_map. apply List.map_id. Qed.

Lemma map_inverse {A B} (f : A -> B) (g : B -> A) (xs : list B) :
  (forall x, f (g x) = x) -> List.map f (List.map g xs) = xs.
Proof. intros H. rewrite List.map_map. rewrite (List.map_ext _ _ H). apply List.map_id. Qed.

(** Every method [main] registers returns: its loops never run out of
    fuel. *)
Lemma greet_methods_return m h :
  greet_methods GreetTripleServer.handler !! m = Some h -> returns h.
Proof.
  unfold greet_methods. rewrite !lookup_insert_Some, lookup_empty.
  intros Hm. repeat destruct Hm as [[_ <-]|[_ Hm]]; cbn [returns]; try done.
  - intros s. rewrite GTS_GreetStream_spec. discriminate.
  - intros c. rewrite GTS_GreetClientStream_spec. discriminate.
Qed.

(** Every call the server [main] serves ends in a terminal state. *)
Lemma main_srv_terminal id m s st s' :
  handle_call main_srv id m s = Ok (st, s') -> is_terminal st = true.
Proof.
  rewrite handle_main. case_decide; [|discriminate].
  destruct (greet_methods GreetTripleServer.handler !! m) as [h|] eqn:E; [|discriminate].
  intros Hc. injection Hc as Hd.
  pose proof (dispatch_terminal h s (greet_methods_return m h E)) as Ht.
  now rewrite Hd in Ht.
Qed.

Lemma failing_stream_map {I O I' O'} (fi : I -> I') (fo : O -> O') (s : Stream I O) :
  failing (stream_map fi fo s) = failing s.
Proof. reflexivity. Qed.

(** A call whose stream already fails (its context was cancelled, or
    the connection broke, before the handler ran) ends Failed with that
    error, whichever method it names. *)
Lemma main_srv_failing id m s e st s' :
  failing s = Some e -> handle_call main_srv id m s = Ok (st, s') -> st = Failed e.
Proof.
  intros Hf. pose proof (failing_not_ended s e Hf) as Hne.
  rewrite handle_main. case_decide; [|discriminate].
  destruct (greet_methods GreetTripleServer.handler !! m) as [h|] eqn:E; [|discriminate].
  intros Hc. injection Hc as Hd. unfold greet_methods in E.
  rewrite !lookup_insert_Some, lookup_empty in E.
  repeat destruct E as [[_ <-]|[_ E]]; try discriminate; unfold dispatch, drive in Hd.
  - rewrite (Recv_failing _ _ Hf) in Hd. now inv Hd.
  - cbn [svc_GreetStream GreetTripleServer.handler] in Hd. rewrite GTS_GreetStream_spec in Hd.
    pose proof (echo_spec_failing (echo_of "")
                  (stream_map GreetStreamRequest.mk GreetStreamResponse.mk s) e
                  ltac:(now rewrite failing_stream_map)) as He.
    destruct (echo_spec _ _) as [s1 r]. cbn in He, Hd. subst r. now inv Hd.
  - cbn [svc_GreetClientStream GreetTripleServer.handler] in Hd.
    rewrite GTS_GreetClientStream_spec in Hd.
    pose proof (collect_spec_failing (collect_of "") []
                  (client_map GreetClientStreamRequest.mk GreetClientStreamResponse.mk
                     (NewClientStream s)) e eq_refl ltac:(exact Hf)) as He.
    destruct (collect_spec _ _ _) as [c1 reqs]. cbn in He.
    unfold client_finish, ClientErr in Hd. rewrite He, Hne in Hd. cbn in Hd. now inv Hd.
  - rewrite (Recv_failing _ _ Hf) in Hd. now inv Hd.
Qed.

(** Looking up a method the generated code registered. *)
Ltac method_lookup :=
  unfold greet_methods;
  repeat (rewrite lookup_insert_ne by done); rewrite lookup_insert_eq.

(** The bidirectional call on [main]'s server, on a fault-free stream
    the client closes cleanly. *)
Lemma main_srv_GreetStream_clean s :
  fault s = None -> inbox_end s = EOF ->
  handle_call main_srv GreetServiceIdentity "GreetStream" s =
  Ok (Completed, mkStream [] EOF (outbox s ++ inbox s)
                          (ops s + 2 * length (inbox s) + 1) None).
Proof.
  intros Hf He. destruct s as [i e o n flt]; cbn in Hf, He; subst.
  rewrite handle_main, decide_True by done. method_lookup.
  unfold dispatch, drive. cbn [svc_GreetStream GreetTripleServer.handler].
  rewrite GTS_GreetStream_spec. unfold echo_spec, echo_done, stream_map. cbn.
  rewrite List.map_app, map_Greeting_echo, map_Greeting_mk, List.length_map.
  reflexivity.
Qed.

(** The client-streaming call on [main]'s server, on a fault-free
    stream the client closes cleanly. *)
Lemma main_srv_GreetClientStream_clean s :
  fault s = None -> inbox_end s = EOF ->
  handle_call main_srv GreetServiceIdentity "GreetClientStream" s =
  Ok (Completed, mkStream [] EOF (outbox s ++ [Join (inbox s) ","])
                          (ops s + length (inbox s) + 2) None).
Proof.
  intros Hf He.
  destruct s as [i e o n flt]; cbn in Hf, He; subst.
  rewrite handle_main, decide_True by done. method_lookup.
  unfold dispatch, drive. cbn [svc_GreetClientStream GreetTripleServer.handler].
  rewrite GTS_GreetClientStream_spec.
  unfold collect_spec, collect_after, client_finish, client_map, stream_map, ClientErr. cbn.
  rewrite (map_inverse _ GreetClientStreamRequest.mk) by (intros []; done).
  rewrite (map_inverse _ GreetClientStreamResponse.mk) by (intros []; done).
  rewrite drop_all, List.length_map. cbn. repeat f_equal. unfold Payload. lia.
Qed.

(** ** Properties *)

(** C1: Bidirectional call end to end: on the server [main] starts, a
    GreetStream call on a stream without fault that the client closes
    cleanly is Completed, and the client receives its own messages back,
    in the order it sent them. *)
Theorem call_GreetStream_echoes srv s :
  main = Ok srv -> fault s = None -> inbox_end s = EOF ->
  handle_call srv GreetServiceIdentity "GreetStream" s =
  Ok (Completed, mkStream [] EOF (outbox s ++ inbox s)
                          (ops s + 2 * length (inbox s) + 1) None).
Proof. rewrite main_ok. intros Hm. inv Hm. apply main_srv_GreetStream_clean. Qed.

(** C14: [main] serves exactly the four methods of [greet.GreetService]
    under the default identity (empty group and version) on port 20000:
    a call resolves iff it names that identity and one of the four
    methods.  Any other identity, such as the group/version pair the
    [GreetTripleServerGroup1Version1] struct was written for, gets
    NotFound. *)
Theorem main_serves_default_identity srv :
  main = Ok srv ->
  srv_port srv = 20000%Z /\
  forall id m s, is_ok (handle_call srv id m s) = true <->
    id = GreetServiceIdentity /\ m ∈ ["Greet"; "GreetStream"; "GreetClientStream"; "GreetServerStream"].
Proof.
  rewrite main_ok. intros Hm. inv Hm. split; [reflexivity|]. intros id m s.
  rewrite handle_main. case_decide as Hid; [|split; [discriminate|tauto]].
  unfold greet_methods. rewrite !lookup_insert.
  repeat case_decide; subst; try (split; [intros _; split; [done|set_solver]|done]).
  rewrite lookup_empty. split; [discriminate|]. intros [_ Hin].
  rewrite !elem_of_cons, elem_of_nil in Hin. naive_solver.
Qed.

(** C15: Unary call end to end: a Greet call carrying the name [x] is
    Completed with exactly one response, [x] itself. *)
Theorem call_Greet_echoes srv s x rest :
  main = Ok srv ->
  (forall k f, fault s = Some (k, f) -> 2 <= k - ops s) -> inbox s = x :: rest ->
  handle_call srv GreetServiceIdentity "Greet" s =
  Ok (Completed, mkStream rest (inbox_end s) (outbox s ++ [x]) (S (S (ops s))) (fault s)).
Proof.
  rewrite main_ok. intros Hm Hb Hi. inv Hm.
  rewrite handle_main, decide_True by done. method_lookup.
  rewrite (dispatch_unary_spec _ s x rest Hb Hi). reflexivity.
Qed.

(** C16: Server-streaming call end to end: a GreetServerStream call with
    the name [x] on a stream without fault is Completed after exactly
    five responses, each [x]. *)
Theorem call_GreetServerStream_five srv s x rest :
  main = Ok srv -> fault s = None -> inbox s = x :: rest ->
  handle_call srv GreetServiceIdentity "GreetServerStream" s =
  Ok (Completed, mkStream rest (inbox_end s) (outbox s ++ [x; x; x; x; x]) (ops s + 6) None).
Proof.
  rewrite main_ok. intros Hm Hf Hi. inv Hm.
  destruct s as [i e o n flt]; cbn in Hf, Hi; subst.
  rewrite handle_main, decide_True by done. method_lookup.
  unfold dispatch, drive. cbn [svc_GreetServerStream GreetTripleServer.handler].
  rewrite (Recv_head _ x rest) by reflexivity. cbn. unfold stream_map. cbn.
  rewrite !List.map_app, (map_inverse _ GreetServerStreamResponse.mk) by (intros []; done).
  rewrite (map_inverse _ GreetServerStreamRequest.mk) by (intros []; done).
  cbn. rewrite <- !app_assoc. do 3 f_equal. lia.
Qed.

(** C17: Client-streaming call end to end: the client's names, closed
    cleanly, produce one response, the names joined by commas, and the
    call is Completed. *)
Theorem call_GreetClientStream_joins srv s :
  main = Ok srv -> fault s = None -> inbox_end s = EOF ->
  handle_call srv GreetServiceIdentity "GreetClientStream" s =
  Ok (Completed, mkStream [] EOF (outbox s ++ [Join (inbox s) ","])
                          (ops s + length (inbox s) + 2) None).
Proof. rewrite main_ok. intros Hm. inv Hm. apply main_srv_GreetClientStream_clean. Qed.

(** C18: Cancellation end to end: a GreetStream call whose context is
    cancelled before the handler has read the end marker Failed with the
    cancellation error, never Completed, however many messages were
    exchanged. *)
Theorem call_GreetStream_cancelled srv s k :
  main = Ok srv -> fault s = Some (k, FCanceled) -> k - ops s <= 2 * length (inbox s) ->
  exists s', handle_call srv GreetServiceIdentity "GreetStream" s = Ok (Failed Canceled, s').
Proof.
  rewrite main_ok. intros Hm Hf Hb. inv Hm.
  destruct s as [i e o n flt]; cbn [fault ops inbox] in Hf, Hb; subst.
  rewrite handle_main, decide_True by done. method_lookup.
  unfold dispatch, drive. cbn [svc_GreetStream GreetTripleServer.handler].
  rewrite GTS_GreetStream_spec. unfold echo_spec, stream_map. cbn [inbox ops fault].
  rewrite List.length_map.
  match goal with
  | |- context [?a <=? ?b] =>
      replace (a <=? b) with true by (symmetry; apply Nat.leb_le; unfold Payload in *; lia)
  end.
  eexists. reflexivity.
Qed.

(** C13: Every call on the server [main] starts ends: a call that resolves
    reaches Completed or Failed, and no later event (a late cancellation
    or a second return) changes that state. *)
Theorem main_calls_terminate srv id m s st s' :
  main = Ok srv -> handle_call srv id m s = Ok (st, s') ->
  is_terminal st = true /\ forall evs, run st evs = st.
Proof.
  rewrite main_ok. intros Hm Hc. inv Hm.
  pose proof (main_srv_terminal id m s st s' Hc) as Ht.
  split; [exact Ht|]. intros evs. now apply run_terminal.
Qed.

(** C19: A client-streaming call whose connection breaks before the end
    marker Failed with that transport error, and the handler sends
    nothing: no partial join reaches the client. *)
Theorem call_GreetClientStream_hangup srv s code :
  main = Ok srv -> fault s = None -> inbox_end s = Transport code ->
  exists s', handle_call srv GreetServiceIdentity "GreetClientStream" s =
             Ok (Failed (Transport code), s') /\ outbox s' = outbox s.
Proof.
  rewrite main_ok. intros Hm Hf He. inv Hm.
  destruct s as [i e o n flt]; cbn in Hf, He; subst.
  rewrite handle_main, decide_True by done. method_lookup.
  unfold dispatch, drive. cbn [svc_GreetClientStream GreetTripleServer.handler].
  rewrite GTS_GreetClientStream_spec.
  unfold collect_spec, collect_after, client_finish, client_map, stream_map, ClientErr. cbn.
  eexists. split; [reflexivity|]. cbn. apply map_inverse. by intros [].
Qed.


(** ** Witnesses *)

Lemma main_serves_default_identity_witness :
  is_ok (handle_call main_srv (mkIdentity GreetServiceName "g1" "v1") "Greet"
           (mkStream ["x"] EOF [] 0 None)) = false.
Proof.
  destruct (is_ok _) eqn:E; [|reflexivity].
  apply (proj2 (main_serves_default_identity main_srv eq_refl)) in E as [E _].
  discriminate.
Defined.

Lemma call_Greet_echoes_witness :
  handle_call main_srv GreetServiceIdentity "Greet" (mkStream ["x"] EOF [] 0 None) =
  Ok (Completed, mkStream [] EOF ["x"] 2 None).
Proof.
  exact (call_Greet_echoes main_srv (mkStream ["x"] EOF [] 0 None) "x" [] eq_refl
           ltac:(discriminate) eq_refl).
Defined.

Lemma call_GreetStream_echoes_witness :
  handle_call main_srv GreetServiceIdentity "GreetStream" (mkStream ["a"; "b"] EOF [] 0 None) =
  Ok (Completed, mkStream [] EOF ["a"; "b"] 5 None).
Proof. exact (call_GreetStream_echoes main_srv (mkStream ["a"; "b"] EOF [] 0 None) eq_refl eq_refl eq_refl). Defined.

Lemma call_GreetServerStream_five_witness :
  handle_call main_srv GreetServiceIdentity "GreetServerStream" (mkStream ["ping"] EOF [] 0 None) =
  Ok (Completed, mkStream [] EOF ["ping"; "ping"; "ping"; "ping"; "ping"] 6 None).
Proof. exact (call_GreetServerStream_five main_srv (mkStream ["ping"] EOF [] 0 None) "ping" [] eq_refl eq_refl eq_refl). Defined.

Lemma call_GreetClientStream_joins_witness :
  handle_call main_srv GreetServiceIdentity "GreetClientStream"
    (mkStream ["a"; "b"; "c"] EOF [] 0 None) =
  Ok (Completed, mkStream [] EOF ["a,b,c"] 5 None).
Proof. exact (call_GreetClientStream_joins main_srv (mkStream ["a"; "b"; "c"] EOF [] 0 None) eq_refl eq_refl eq_refl). Defined.

Lemma call_GreetStream_cancelled_witness :
  exists s', handle_call main_srv GreetServiceIdentity "GreetStream"
               (mkStream ["a"; "b"] EOF [] 0 (Some (3, FCanceled))) = Ok (Failed Canceled, s').
Proof.
  exact (call_GreetStream_cancelled main_srv (mkStream ["a"; "b"] EOF [] 0 (Some (3, FCanceled))) 3 eq_refl eq_refl ltac:(simpl; lia)).
Defined.

Lemma main_calls_terminate_witness :
  is_terminal Completed = true /\ forall evs, run Completed evs = Completed.
Proof.
  exact (main_calls_terminate main_srv GreetServiceIdentity "GreetStream" (mkStream ["a"; "b"] EOF [] 0 None)
           Completed (mkStream [] EOF ["a"; "b"] 5 None) eq_refl eq_refl).
Defined.

Lemma call_GreetClientStream_hangup_witness :
  exists s', handle_call main_srv GreetServiceIdentity "GreetClientStream"
               (mkStream ["a"; "b"] (Transport 7) ["z"] 0 None) = Ok (Failed (Transport 7), s') /\
             outbox s' = ["z"].
Proof.
  exact (call_GreetClientStream_hangup main_srv (mkStream ["a"; "b"] (Transport 7) ["z"] 0 None) 7 eq_refl eq_refl eq_refl).
Defined.

