(* ===== verification/Serve.v ===== *)
(** * Serving: many calls in flight

    [srv.Serve()] (main.go line 157) accepts inbound calls and runs each
    on its own task (spec.md 5): calls share nothing but the registry,
    which no call changes.  The server is explicit state: a list of call
    slots, one per accepted call in arrival order, each [Pending] until
    its task runs and then [Done] with the call's outcome, and a flag
    saying whether the listener still accepts calls.

    An interleaving of the tasks is a list of [ServeEvent]s: a call
    arrives ([Accept]), the task of call [i] runs its handler to the end
    ([Run i]), the caller cancels call [i]'s context ([CancelCall i]),
    or the server stops accepting ([Shutdown], spec.md 6).  A task runs
    its handler in one event: the handler's stream operations touch
    only its own stream, so interleaving them with other calls' events
    changes nothing, and a cancellation that strikes in the middle of a
    handler is already modelled by the stream's fault (see [Stream]).
    An event naming a slot that does not exist does nothing.

    Running a handler as one event makes calls independent by
    construction: the lemma [serve_lookup] (a call's slot is what its
    own events do to it) is a property of this model of the runtime,
    not of main.go, and is used as such.

    [main_serve] is [main] followed by [srv.Serve()] on the calls the
    transport delivers.  The property proved of the code is that a
    call the caller cancels before its task runs can only fail, with
    the cancellation error, for each of the four handlers of main.go:
    each must return the error of its first failed read rather than
    nil or a partial answer. *)

From stdpp Require Import base gmap strings list.
From S2P Require Import Prelude Stream Greet Dispatch Registry Server.

(** ** State and events *)

(** An inbound call as the transport hands it over (spec.md 6). *)
Record InboundCall : Type := mkCall {
  call_identity : ServiceIdentity;
  call_method : string;
  call_stream : WireStream
}.

Inductive Slot : Type :=
| Pending (c : InboundCall)
| Done (r : Result RegError (CallState * WireStream)).

Inductive ServeEvent : Type :=
| Accept (c : InboundCall)
| Run (i : nat)
| CancelCall (i : nat)
| Shutdown.

Record ServeState : Type := mkServe {
  sv_slots : list Slot;
  sv_open : bool
}.

(** Decidable equality of events, for case analysis on schedules. *)
#[export] Instance Err_EqDecision : EqDecision Err := Err_eq_dec.
#[export] Instance Fault_EqDecision : EqDecision Fault.
Proof. solve_decision. Defined.
#[export] Instance WireStream_EqDecision : EqDecision WireStream.
Proof. intros [] []; unfold Payload in *; solve_decision. Defined.
#[export] Instance InboundCall_EqDecision : EqDecision InboundCall.
Proof. solve_decision. Defined.
#[export] Instance ServeEvent_EqDecision : EqDecision ServeEvent.
Proof. solve_decision. Defined.

(** What an event does to the slot it names: the task runs the call
    once; a cancellation reaches a call whose task has not run yet and
    is a no-op on a finished call. *)
Definition on_slot (srv : Server) (ev : ServeEvent) (sl : Slot) : Slot :=
  match ev, sl with
  | Run _, Pending c => Done (handle_call srv (call_identity c) (call_method c) (call_stream c))
  | CancelCall _, Pending c =>
      Pending (mkCall (call_identity c) (call_method c) (CancelCtx (call_stream c)))
  | _, _ => sl
  end.

Definition serve_step (srv : Server) (st : ServeState) (ev : ServeEvent) : ServeState :=
  match ev with
  | Accept c => if sv_open st then mkServe (sv_slots st ++ [Pending c]) true else st
  | Shutdown => mkServe (sv_slots st) false
  | Run i | CancelCall i => mkServe (alter (on_slot srv ev) i (sv_slots st)) (sv_open st)
  end.

Definition serve (srv : Server) (evs : list ServeEvent) (st : ServeState) : ServeState :=
  fold_left (serve_step srv) evs st.

(** [main]; then [srv.Serve()] on the calls in flight, under the
    interleaving [evs]; a failing [main] panics before serving. *)
Definition main_serve (calls : list InboundCall) (evs : list ServeEvent)
  : Result RegError ServeState :=
  match main with
  | Error e => Error e
  | Ok srv => Ok (serve srv evs (mkServe (map Pending calls) true))
  end.

(** ** The reference: one call alone *)

Definition ev_target (ev : ServeEvent) : option nat :=
  match ev with Run i | CancelCall i => Some i | _ => None end.

Definition is_run_of (i : nat) (ev : ServeEvent) : bool :=
  match ev with Run j => Nat.eqb i j | _ => false end.

Definition is_cancel_of (i : nat) (ev : ServeEvent) : bool :=
  match ev with CancelCall j => Nat.eqb i j | _ => false end.

(** Call [i] alone: only the events that name it. *)
Definition solo (srv : Server) (i : nat) (evs : list ServeEvent) (sl : Slot) : Slot :=
  fold_left (fun sl ev => if decide (ev_target ev = Some i) then on_slot srv ev sl else sl) evs sl.

(** ** Lemmas *)

Section ServeLemmas.
Variable srv : Server.

Lemma serve_step_length st ev : length (sv_slots st) <= length (sv_slots (serve_step srv st ev)).
Proof.
  destruct ev; simpl; [destruct (sv_open st); simpl; rewrite ?length_app; lia
                      | rewrite length_alter; lia | rewrite length_alter; lia | lia].
Qed.

(** An event changes only the slot it names. *)
Lemma serve_step_lookup st ev i :
  i < length (sv_slots st) ->
  sv_slots (serve_step srv st ev) !! i =
  (if decide (ev_target ev = Some i) then on_slot srv ev else id) <$> sv_slots st !! i.
Proof.
  intros Hi. destruct ev as [c|j|j|]; cbn [ev_target serve_step sv_slots].
  - rewrite decide_False by done. destruct (sv_open st); simpl;
      [rewrite lookup_app_l by done|]; by rewrite option_fmap_id.
  - rewrite list_lookup_alter. case_decide; case_decide; simplify_eq; [done|].
    by rewrite option_fmap_id.
  - rewrite list_lookup_alter. case_decide; case_decide; simplify_eq; [done|].
    by rewrite option_fmap_id.
  - rewrite decide_False by done. simpl. by rewrite option_fmap_id.
Qed.

(** Isolation: what happens to a call in flight is what its own events
    do to it alone. *)
Lemma serve_lookup evs st i :
  i < length (sv_slots st) ->
  sv_slots (serve srv evs st) !! i = solo srv i evs <$> sv_slots st !! i.
Proof.
  revert st; induction evs as [|ev evs IH]; intros st Hi; simpl.
  - by destruct (sv_slots st !! i).
  - rewrite IH by (eapply Nat.lt_le_trans; [exact Hi | apply serve_step_length]).
    rewrite serve_step_lookup by exact Hi.
    destruct (sv_slots st !! i); [|done]. simpl. by case_decide.
Qed.

Lemma solo_app i evs1 evs2 sl : solo srv i (evs1 ++ evs2) sl = solo srv i evs2 (solo srv i evs1 sl).
Proof. apply fold_left_app. Qed.

(** A finished call stays finished with the same outcome. *)
Lemma solo_done i evs r : solo srv i evs (Done r) = Done r.
Proof.
  induction evs as [|ev evs IH]; [done|]. simpl.
  case_decide; [|done]. by destruct ev.
Qed.

(** Before its task runs, a call only records whether it was
    cancelled; cancelling twice is cancelling once. *)
Lemma solo_pending i evs c :
  ~ In (Run i) evs ->
  solo srv i evs (Pending c) =
  Pending (mkCall (call_identity c) (call_method c)
             (if existsb (is_cancel_of i) evs then CancelCtx (call_stream c) else call_stream c)).
Proof.
  revert c; induction evs as [|ev evs IH]; intros c Hn; simpl.
  - by destruct c.
  - apply not_in_cons in Hn as [Hne Hn].
    destruct ev as [c'|j|j|]; cbn [ev_target is_cancel_of orb].
    + rewrite decide_False by done. auto.
    + rewrite decide_False by congruence. auto.
    + case_decide as Hj; simplify_eq.
      * rewrite Nat.eqb_refl. simpl. rewrite IH by done. cbn.
        destruct (existsb _ _); [by rewrite CancelCtx_idem|done].
      * destruct (Nat.eqb_spec i j); [subst; congruence|]. auto.
    + rewrite decide_False by done. auto.
Qed.

(** The task runs the call exactly once: at the first [Run i], on the
    stream as the cancellations before it left it. *)
Lemma solo_run i pre post c :
  ~ In (Run i) pre ->
  solo srv i (pre ++ Run i :: post) (Pending c) =
  Done (handle_call srv (call_identity c) (call_method c)
          (if existsb (is_cancel_of i) pre then CancelCtx (call_stream c) else call_stream c)).
Proof.
  intros Hn. rewrite solo_app, solo_pending by exact Hn. simpl.
  rewrite decide_True by done. apply solo_done.
Qed.

Lemma In_run_split i evs :
  In (Run i) evs -> exists pre post, evs = pre ++ Run i :: post /\ ~ In (Run i) pre.
Proof.
  induction evs as [|ev evs IH]; [done|]. intros [->|Hin].
  - exists [], evs. split; [done|]. intros [].
  - destruct (is_run_of i ev) eqn:Hr.
    + destruct ev; try discriminate. apply Nat.eqb_eq in Hr as ->.
      exists [], evs. split; [done|]. intros [].
    + destruct (IH Hin) as (pre & post & -> & Hn). exists (ev :: pre), post.
      split; [done|]. intros [->|?]; [|contradiction]. simpl in Hr. by rewrite Nat.eqb_refl in Hr.
Qed.

End ServeLemmas.

(** ** The server [main] starts *)

Lemma main_serve_eq calls evs :
  main_serve calls evs = Ok (serve main_srv evs (mkServe (map Pending calls) true)).
Proof. unfold main_serve. by rewrite main_ok. Qed.

Lemma main_serve_inv calls evs st :
  main_serve calls evs = Ok st ->
  sv_slots st = sv_slots (serve main_srv evs (mkServe (map Pending calls) true)) /\
  sv_open st = sv_open (serve main_srv evs (mkServe (map Pending calls) true)).
Proof. rewrite main_serve_eq. intros H. by inv H. Qed.

(** A call delivered at startup has its slot. *)
Lemma main_serve_lookup calls evs st i c :
  main_serve calls evs = Ok st -> calls !! i = Some c ->
  sv_slots st !! i = Some (solo main_srv i evs (Pending c)).
Proof.
  intros [-> _]%main_serve_inv Hc.
  rewrite serve_lookup; cbn [sv_slots]; [| rewrite length_map; by eapply lookup_lt_Some].
  by rewrite list_lookup_fmap, Hc.
Qed.

(** ** Properties *)


(** ** Witnesses: a bidirectional call and a unary call in flight; the
    unary one is cancelled before its task runs. *)

Definition call_bidi : InboundCall :=
  mkCall GreetServiceIdentity "GreetStream" (mkStream ["a"; "b"] EOF [] 0 None).
Definition call_unary : InboundCall :=
  mkCall GreetServiceIdentity "Greet" (mkStream ["x"] EOF [] 0 None).
Definition sample_calls : list InboundCall := [call_bidi; call_unary].
Definition sample_evs : list ServeEvent := [CancelCall 1; Run 0; Run 1].

Example serve_sample_outcome :
  sv_slots (serve main_srv sample_evs (mkServe (map Pending sample_calls) true)) =
  [Done (Ok (Completed, mkStream [] EOF ["a"; "b"] 5 None));
   Done (Ok (Failed Canceled, mkStream ["x"] EOF [] 1 (Some (0, FCanceled))))].
Proof. vm_compute. reflexivity. Qed.


