(* ===== verification/BookingTools.v ===== *)
(** * The flight-booking tools of
      llm/book-flight/go-server/tools/bookingflight/booking_tools.go

    Three tools an LLM agent calls with a JSON argument:
    [SearchFlightTicket.Call] decodes an origin, destination and date and
    answers with the whole flight table when the origin is Beijing;
    [PurchaseFlightTicket.Call] decodes a flight number and answers with
    the first table row carrying it; [FinishPlaceholder.Call] answers
    "FINISH".  The table [flightInformation] is a list of Go
    [map[string]string], modelled as [gmap string string]; a missing key
    reads as the empty string, as a Go map index does.

    Go's [encoding/json] is not part of the repository: [JSONCodec]
    abstracts the three calls the file makes (decode a JSON object,
    encode a map, encode a list of maps).  [json.Unmarshal] into a struct
    of string fields is modelled as decoding the object and reading each
    field's tag as a key (Go also accepts a key differing in case; that
    matching is part of the library and not modelled).  [json.Marshal] of
    string maps never fails, so those calls return a nil error.  A Go
    method returning [(string, error)] returns both values here, since
    the decode-error branch returns a message and the error together.

    The three tool types embed a [tools.BaseTool] built by the package
    [tools] of the sample (outside [src/]); [ToolsPackage] abstracts the
    two functions the constructors call, [NewBaseTool] and
    [GetStructKeys].  The [Call] methods take their receiver as the Go
    methods do, and never read it. *)

From stdpp Require Import base gmap strings list.
From Stdlib Require Import Ascii.
From S2P Require Import Prelude.
Local Open Scope string_scope.

(** ** Go errors and the JSON library *)

Record GoError : Type := mkGoError { err_msg : string }.

Class JSONCodec : Type := {
  json_decode_object : string -> Result GoError (gmap string string);
  json_marshal_object : gmap string string -> string;
  json_marshal_array : list (gmap string string) -> string
}.

(** The law a JSON library keeps: decoding an object it marshalled
    gives the object back. *)
Class JSONLaws `{JSONCodec} : Prop := {
  decode_marshal_object o : json_decode_object (json_marshal_object o) = Ok o
}.

(** [m[k]] on a Go [map[string]string]. *)
Definition map_index (m : gmap string string) (k : string) : string :=
  default "" (m !! k).

(** ** The flight table *)

(** One map literal of the table, its seven keys in the source's order. *)
Definition flight (number origin destination departure arrival price seat : string)
  : gmap string string :=
  list_to_map [("flight_number", number); ("origin", origin); ("destination", destination);
               ("departure_time", departure); ("arrival_time", arrival);
               ("price", price); ("seat_type", seat)].

Definition flightInformation : list (gmap string string) :=
  [flight "MU5100" "北京" "上海" "2024-06-01 07:00" "2024-06-01 09:15" "900.00" "头等舱";
   flight "MU6865" "北京" "上海" "2024-06-01 07:20" "2024-06-01 09:25" "1160.00" "头等舱";
   flight "HM7601" "北京" "上海" "2024-06-01 07:30" "2024-06-01 09:55" "1080.00" "普通舱";
   flight "CA1515" "北京" "上海" "2024-06-01 15:45" "2024-06-01 17:55" "1080.00" "普通舱";
   flight "GS9012" "北京" "上海" "2024-06-01 19:00" "2024-06-01 23:00" "1250.00" "头等舱";
   flight "GS9013" "北京" "上海" "2024-06-01 18:30" "2024-06-01 22:00" "1200.00" "头等舱"].

(** ** Argument structs *)

Record serachFlightTicketData : Type := mkSearchData {
  Origin : string;
  Destination : string;
  Date : string;
  DepartureTimeStart : string;
  DepartureTimeEnd : string
}.

Definition serachFlightTicketData_of_json (o : gmap string string) : serachFlightTicketData :=
  mkSearchData (map_index o "origin") (map_index o "destination") (map_index o "date")
               (map_index o "departure_time_start") (map_index o "departure_time_end").

Record purchaseFlightTicketData : Type := mkPurchaseData { FlightNumber : string }.

Definition purchaseFlightTicketData_of_json (o : gmap string string) : purchaseFlightTicketData :=
  mkPurchaseData (map_index o "flight_number").

(** ** The tool types and their constructors *)

Class ToolsPackage : Type := {
  BaseTool : Type;
  NewBaseTool : string -> string -> list string -> string -> string -> string -> BaseTool;
  GetStructKeys : option (serachFlightTicketData + purchaseFlightTicketData) -> list string
}.

Section ToolTypes.
Context `{ToolsPackage}.

Record SearchFlightTicket : Type := mkSearchFlightTicket { stt_BaseTool : BaseTool }.

Definition NewSearchFlightTicket (name description : string) : SearchFlightTicket :=
  mkSearchFlightTicket
    (NewBaseTool name description (GetStructKeys (Some (inl (mkSearchData "" "" "" "" "")))) "" "" "").

Record PurchaseFlightTicket : Type := mkPurchaseFlightTicket { ptt_BaseTool : BaseTool }.

Definition NewPurchaseFlightTicket (name description : string) : PurchaseFlightTicket :=
  mkPurchaseFlightTicket
    (NewBaseTool name description (GetStructKeys (Some (inr (mkPurchaseData "")))) "" "" "").

Record FinishPlaceholder : Type := mkFinishPlaceholder { fp_BaseTool : BaseTool }.

Definition NewFinishPlaceholder (name description : string) : FinishPlaceholder :=
  mkFinishPlaceholder (NewBaseTool name description (GetStructKeys None) "" "" "").

End ToolTypes.

Section Tools.
Context `{JSONCodec} `{ToolsPackage}.

(** ** SearchFlightTicket *)

Definition searchFlightTicket (stt : SearchFlightTicket) (data : serachFlightTicketData) : string * option GoError :=
  if negb (String.eqb (Origin data) "北京") then ("未查询到相关内容", None)
  else
    let rst := flightInformation in
    (json_marshal_array rst, None).

Definition SearchFlightTicket_Call (stt : SearchFlightTicket) (input : string)
  : string * option GoError :=
  match json_decode_object input with
  | Error err => ("Error: " ++ err_msg err, Some err)
  | Ok o => searchFlightTicket stt (serachFlightTicketData_of_json o)
  end.

(** ** PurchaseFlightTicket *)

(** [for _, info := range flightInfo { if ... { return ... } }]. *)
Fixpoint purchaseFlightTicket_loop (data : purchaseFlightTicketData)
    (flightInfo : list (gmap string string)) : string * option GoError :=
  match flightInfo with
  | [] => ("The flight was not found: " ++ FlightNumber data, None)
  | info :: rest =>
      if String.eqb (FlightNumber data) (map_index info "flight_number")
      then (json_marshal_object info, None)
      else purchaseFlightTicket_loop data rest
  end.

Definition purchaseFlightTicket (ptt : PurchaseFlightTicket) (data : purchaseFlightTicketData) : string * option GoError :=
  let flightInfo := flightInformation in
  purchaseFlightTicket_loop data flightInfo.

Definition PurchaseFlightTicket_Call (ptt : PurchaseFlightTicket) (input : string)
  : string * option GoError :=
  match json_decode_object input with
  | Error err => ("Error: " ++ err_msg err, Some err)
  | Ok o => purchaseFlightTicket ptt (purchaseFlightTicketData_of_json o)
  end.

(** ** FinishPlaceholder *)

Definition FinishPlaceholder_Call (ptt : FinishPlaceholder) (input : string)
  : string * option GoError := ("FINISH", None).

End Tools.

(** ** Properties *)

Section Properties.
Context `{JSONCodec} `{ToolsPackage}.

Lemma purchase_loop_not_found data infos :
  Forall (fun info => map_index info "flight_number" <> FlightNumber data) infos ->
  purchaseFlightTicket_loop data infos = ("The flight was not found: " ++ FlightNumber data, None).
Proof.
  induction 1 as [|info infos Hne _ IH]; [reflexivity|]. simpl.
  destruct (String.eqb_spec (FlightNumber data) (map_index info "flight_number")); [congruence|].
  exact IH.
Qed.

(** The purchase of a listed flight, row by row. *)
Lemma purchase_row ptt info :
  info ∈ flightInformation ->
  purchaseFlightTicket ptt (mkPurchaseData (map_index info "flight_number"))
  = (json_marshal_object info, None).
Proof.
  intros Hin. unfold flightInformation in Hin.
  rewrite !elem_of_cons, elem_of_nil in Hin.
  destruct_or! Hin; subst; try done; vm_compute; reflexivity.
Qed.

(** C20: Purchasing a flight listed in the table answers with the
    JSON encoding of exactly that row and a nil error. *)
Theorem purchase_listed_flight ptt info :
  info ∈ flightInformation ->
  purchaseFlightTicket ptt (mkPurchaseData (map_index info "flight_number"))
  = (json_marshal_object info, None).
Proof. apply purchase_row. Qed.

(** C21: Purchasing a flight number that is not in the table answers
    "The flight was not found: <number>" with a nil error. *)
Theorem purchase_unlisted_flight ptt number :
  number ∉ map (fun info => map_index info "flight_number") flightInformation ->
  purchaseFlightTicket ptt (mkPurchaseData number)
  = ("The flight was not found: " ++ number, None).
Proof.
  intros Hn. unfold purchaseFlightTicket. apply (purchase_loop_not_found (mkPurchaseData number)).
  apply Forall_forall. intros info Hin Heq. apply Hn. cbn in Heq. rewrite <- Heq.
  apply list_elem_of_In, in_map_iff. exists info. split; [done|by apply list_elem_of_In].
Qed.

(** C22: The search checks only the origin (as the comment at line 63
    says): two requests that decode to objects with the same origin get
    the same answer, whatever their destination and date, although the
    struct tags mark those fields [validate:"required"]. *)
Theorem search_depends_only_on_origin stt1 stt2 in1 in2 o1 o2 :
  json_decode_object in1 = Ok o1 -> json_decode_object in2 = Ok o2 ->
  o1 !! "origin" = o2 !! "origin" ->
  SearchFlightTicket_Call stt1 in1 = SearchFlightTicket_Call stt2 in2.
Proof.
  intros H1 H2 Ho. unfold SearchFlightTicket_Call. rewrite H1, H2.
  unfold searchFlightTicket, serachFlightTicketData_of_json, map_index; cbn [Origin].
  by rewrite Ho.
Qed.

(** C23: A malformed argument makes both tools answer "Error: <msg>"
    together with the decoding error itself (Go returns both values). *)
Theorem Call_decode_error stt ptt input err :
  json_decode_object input = Error err ->
  SearchFlightTicket_Call stt input = ("Error: " ++ err_msg err, Some err) /\
  PurchaseFlightTicket_Call ptt input = ("Error: " ++ err_msg err, Some err).
Proof. intros He. unfold SearchFlightTicket_Call, PurchaseFlightTicket_Call. by rewrite He. Qed.

(** C26: The search tool end to end on a well-formed argument: it
    answers the whole table exactly when the decoded object has the
    origin "北京"; an argument with another origin, or with no origin at
    all (a missing key reads as the empty string), gets the message
    "未查询到相关内容" and a nil error. *)
Theorem SearchFlightTicket_Call_decoded stt input o :
  json_decode_object input = Ok o ->
  SearchFlightTicket_Call stt input =
  if decide (o !! "origin" = Some "北京") then (json_marshal_array flightInformation, None)
  else ("未查询到相关内容", None).
Proof.
  intros Hd. unfold SearchFlightTicket_Call, searchFlightTicket, serachFlightTicketData_of_json.
  rewrite Hd. cbn [Origin]. unfold map_index.
  destruct (o !! "origin") as [v|]; case_decide as Hv; simplify_eq; [reflexivity| |reflexivity].
  cbn [default]; unfold id. destruct (String.eqb_spec v "北京"); [congruence|reflexivity].
Qed.

(** C27: Round trip through the purchase tool: with a JSON library that
    keeps its law, marshalling the request {"flight_number": n} for a
    listed flight, calling the tool and decoding its answer gives back
    exactly the table row of flight n, with a nil error. *)
Theorem purchase_roundtrip `{!JSONLaws} ptt info :
  info ∈ flightInformation ->
  let req := json_marshal_object {["flight_number" := map_index info "flight_number"]} in
  snd (PurchaseFlightTicket_Call ptt req) = None /\
  json_decode_object (fst (PurchaseFlightTicket_Call ptt req)) = Ok info.
Proof.
  intros Hin req. unfold req, PurchaseFlightTicket_Call. rewrite decode_marshal_object.
  unfold purchaseFlightTicketData_of_json.
  replace (map_index {["flight_number" := map_index info "flight_number"]} "flight_number")
    with (map_index info "flight_number") by (unfold map_index; by rewrite lookup_singleton_eq).
  rewrite purchase_row by exact Hin. split; [done|]. apply decode_marshal_object.
Qed.

End Properties.

(** ** Witnesses, with a small codec: a non-empty argument decodes to an
    object whose origin and flight number are the argument itself. *)

Definition sample_codec : JSONCodec := {|
  json_decode_object := fun s =>
    if String.eqb s "" then Error (mkGoError "unexpected end of JSON input")
    else Ok (<["origin" := s]> (<["flight_number" := s]> ∅));
  json_marshal_object := fun m => map_index m "flight_number";
  json_marshal_array := fun l => String.concat "," (map (fun m => map_index m "flight_number") l)
|}.

(** A [tools] package whose base tool records the name and the keys. *)
Definition sample_tools : ToolsPackage := {|
  BaseTool := string * list string;
  NewBaseTool := fun name _ keys _ _ _ => (name, keys);
  GetStructKeys := fun v =>
    match v with
    | Some (inl _) => ["origin"; "destination"; "date"; "departure_time_start"; "departure_time_end"]
    | Some (inr _) => ["flight_number"]
    | None => []
    end
|}.

Definition sample_search : @SearchFlightTicket sample_tools :=
  @NewSearchFlightTicket sample_tools "searchFlightTicket" "search flights".
Definition sample_purchase : @PurchaseFlightTicket sample_tools :=
  @NewPurchaseFlightTicket sample_tools "purchaseFlightTicket" "buy a ticket".

Lemma purchase_listed_flight_witness :
  @purchaseFlightTicket sample_codec sample_tools sample_purchase (mkPurchaseData "CA1515")
  = ("CA1515", None).
Proof.
  exact (@purchase_listed_flight sample_codec sample_tools sample_purchase
           (flight "CA1515" "北京" "上海" "2024-06-01 15:45" "2024-06-01 17:55" "1080.00" "普通舱")
           ltac:(unfold flightInformation; rewrite !elem_of_cons; tauto)).
Defined.

Lemma purchase_unlisted_flight_witness :
  @purchaseFlightTicket sample_codec sample_tools sample_purchase (mkPurchaseData "ZZ0000")
  = ("The flight was not found: ZZ0000", None).
Proof.
  apply (@purchase_unlisted_flight sample_codec sample_tools sample_purchase "ZZ0000").
  apply (bool_decide_unpack _). vm_compute. reflexivity.
Defined.

Lemma search_depends_only_on_origin_witness :
  @SearchFlightTicket_Call sample_codec sample_tools sample_search "上海"
  = @SearchFlightTicket_Call sample_codec sample_tools
      (@NewSearchFlightTicket sample_tools "other" "another name") "上海".
Proof.
  exact (@search_depends_only_on_origin sample_codec sample_tools _ _ "上海" "上海" _ _
           eq_refl eq_refl eq_refl).
Defined.

Lemma Call_decode_error_witness :
  @SearchFlightTicket_Call sample_codec sample_tools sample_search ""
  = ("Error: unexpected end of JSON input", Some (mkGoError "unexpected end of JSON input")).
Proof. exact (proj1 (@Call_decode_error sample_codec sample_tools sample_search sample_purchase "" _ eq_refl)). Defined.

Lemma SearchFlightTicket_Call_decoded_witness :
  @SearchFlightTicket_Call sample_codec sample_tools sample_search "北京"
  = (@json_marshal_array sample_codec flightInformation, None).
Proof.
  rewrite (@SearchFlightTicket_Call_decoded sample_codec sample_tools sample_search "北京" _ eq_refl).
  vm_compute. reflexivity.
Defined.

(** ** A JSON codec that keeps the law

    Each string is written as its length in unary ('#' repeated, then
    '.') followed by its characters; an object is the list of its
    (key, value) pairs written in turn.  Decoding reads the pairs back,
    so decoding a marshalled object gives the object. *)

Fixpoint hashes (n : nat) : string :=
  match n with O => "." | S n => String "#"%char (hashes n) end.

Definition enc_str (s : string) : string := hashes (String.length s) ++ s.

Fixpoint read_len (s : string) : option (nat * string) :=
  match s with
  | EmptyString => None
  | String c r =>
      if Ascii.eqb c "#"%char then
        match read_len r with Some (n, t) => Some (S n, t) | None => None end
      else if Ascii.eqb c "."%char then Some (0, r) else None
  end.

Fixpoint take_str (n : nat) (s : string) : option (string * string) :=
  match n, s with
  | O, _ => Some ("", s)
  | S n, String c r =>
      match take_str n r with Some (p, t) => Some (String c p, t) | None => None end
  | S _, EmptyString => None
  end.

Definition read_str (s : string) : option (string * string) :=
  match read_len s with Some (n, t) => take_str n t | None => None end.

Fixpoint enc_pairs (l : list (string * string)) : string :=
  match l with [] => "" | (k, v) :: l => enc_str k ++ enc_str v ++ enc_pairs l end.

Fixpoint dec_pairs (fuel : nat) (s : string) : option (list (string * string)) :=
  match fuel with
  | O => None
  | S fuel =>
      match s with
      | EmptyString => Some []
      | _ =>
          match read_str s with
          | Some (k, t) =>
              match read_str t with
              | Some (v, u) =>
                  match dec_pairs fuel u with Some l => Some ((k, v) :: l) | None => None end
              | None => None
              end
          | None => None
          end
      end
  end.

Lemma read_len_hashes n t : read_len (hashes n ++ t) = Some (n, t).
Proof. induction n; simpl; [reflexivity|]. by rewrite IHn. Qed.

Lemma take_str_app s t : take_str (String.length s) (s ++ t) = Some (s, t).
Proof. induction s; simpl; [reflexivity|]. by rewrite IHs. Qed.

Lemma read_str_enc s t : read_str (enc_str s ++ t) = Some (s, t).
Proof. unfold read_str, enc_str. rewrite string_app_assoc, read_len_hashes. apply take_str_app. Qed.

Lemma enc_str_nonempty s t : exists c r, enc_str s ++ t = String c r.
Proof. unfold enc_str. destruct (String.length s); simpl; eauto. Qed.

Lemma dec_enc_pairs l fuel : length l < fuel -> dec_pairs fuel (enc_pairs l) = Some l.
Proof.
  revert fuel; induction l as [|[k v] l IH]; intros [|fuel] Hf; simpl in *; try lia; [reflexivity|].
  destruct (enc_str_nonempty k (enc_str v ++ enc_pairs l)) as (c & r & Hcr).
  rewrite Hcr, <- Hcr, read_str_enc, read_str_enc, IH by lia. reflexivity.
Qed.

Lemma enc_str_length s : 1 <= String.length (enc_str s).
Proof. unfold enc_str. rewrite string_length_app. destruct (String.length s); simpl; lia. Qed.

Lemma enc_pairs_length l : length l <= String.length (enc_pairs l).
Proof.
  induction l as [|[k v] l IH]; simpl; [lia|].
  rewrite !string_length_app. pose proof (enc_str_length k). lia.
Qed.

Definition enc_codec : JSONCodec := {|
  json_decode_object := fun s =>
    match dec_pairs (S (String.length s)) s with
    | Some l => Ok (list_to_map l)
    | None => Error (mkGoError "invalid character")
    end;
  json_marshal_object := fun m => enc_pairs (map_to_list m);
  json_marshal_array := fun l => String.concat "," (map (fun m => enc_pairs (map_to_list m)) l)
|}.

#[export] Instance enc_codec_laws : @JSONLaws enc_codec.
Proof.
  constructor. intros o. cbn [json_decode_object json_marshal_object enc_codec]. rewrite dec_enc_pairs by (pose proof (enc_pairs_length (map_to_list o)); lia).
  by rewrite list_to_map_to_list.
Qed.

Lemma purchase_roundtrip_witness :
  @json_decode_object enc_codec
    (fst (@PurchaseFlightTicket_Call enc_codec sample_tools sample_purchase
            (@json_marshal_object enc_codec {["flight_number" := "CA1515"]})))
  = Ok (flight "CA1515" "北京" "上海" "2024-06-01 15:45" "2024-06-01 17:55" "1080.00" "普通舱").
Proof.
  exact (proj2 (@purchase_roundtrip enc_codec sample_tools enc_codec_laws sample_purchase
           (flight "CA1515" "北京" "上海" "2024-06-01 15:45" "2024-06-01 17:55" "1080.00" "普通舱")
           ltac:(unfold flightInformation; rewrite !elem_of_cons; tauto))).
Defined.
